(** * Koa application core: dispatcher, context factory, response finalizer
      and default error handler of [lib/application.js].

    The development is a shallow embedding.  JavaScript values are an
    inductive type, strings are Rocq strings holding the UTF-8 bytes of the
    JavaScript string (so [Buffer.byteLength] is [String.length]), and code
    that may throw runs in a small state-and-exception monad.

    The context factory is modelled on a heap of objects with prototypes and
    own properties, because what it establishes is which object refers to
    which.  The finalizer and the dispatcher are modelled on a record of the
    state they read and write through the accessors of the context: the two
    transport handles, the [respond] property, the body and the explicit-null
    flag.  What the dispatcher calls but this file does not hold, the table
    of the [statuses] package and [ctx.onerror] of [lib/context.js], is a
    parameter of the definitions that use it. *)

From Stdlib Require Import ZArith Ascii String.
From Stdlib.Strings Require Import Byte.
From stdpp Require Import base option list gmap strings pretty.

#[local] Set Warnings "-register-all".
Local Open Scope string_scope.
Local Open Scope list_scope.
Local Open Scope Z_scope.

(** ** JavaScript values *)

(** The built-in functions a property read of this file can return: the
    method [keys] that an array and a [Buffer] inherit from their
    prototypes. *)
Inductive builtin : Type :=
| Array_prototype_keys
| TypedArray_prototype_keys.

(** The values handlers can store in the context or throw.  [VNum n] is the
    finite number nearest to the integer [n] (see [to_double]), [VStr] a
    string (UTF-8 bytes), [VBuffer] a [Buffer].  The three object shapes carry
    their own enumerable properties in insertion order, the first entry of a
    key being the property: a plain object, an instance of [Stream], and a
    native error (with its non-enumerable [name], [message] and [stack];
    [stack] is [None] when the property is undefined). *)
Inductive value : Type :=
| VUndefined
| VNull
| VBool (b : bool)
| VNum (n : Z)
| VBigInt (n : Z)
| VStr (s : string)
| VBuffer (bytes : list byte)
| VArray (items : list value)
| VObject (props : list (string * value))
| VStream (props : list (string * value))
| VError (name message : string) (stack : option string)
         (props : list (string * value))
| VBuiltin (f : builtin).

(** What a [throw] carries: a [TypeError] raised by the runtime or by this
    file, or any value raised by a handler. *)
Inductive exn : Type :=
| TypeError (message : string)
| Raised (v : value).

(** [ToBoolean]. *)
Definition truthy (v : value) : bool :=
  match v with
  | VUndefined | VNull => false
  | VBool b => b
  | VNum n | VBigInt n => negb (n =? 0)
  | VStr s => negb (String.eqb s "")
  | _ => true
  end.

(** [false === v]. *)
Definition strict_eq_false (v : value) : bool :=
  match v with VBool false => true | _ => false end.

(** [404 === v] and friends: strict equality with a number literal. *)
Definition strict_eq_num (n : Z) (v : value) : bool :=
  match v with VNum m => n =? m | _ => false end.

(** [null == v]. *)
Definition is_nullish (v : value) : bool :=
  match v with VUndefined | VNull => true | _ => false end.

(** [v instanceof Stream]. *)
Definition instanceof_Stream (v : value) : bool :=
  match v with VStream _ => true | _ => false end.


(** The value of the first entry with key [k] in a list of properties;
    [undefined] when there is none. *)
Fixpoint assoc (k : string) (props : list (string * value)) : value :=
  match props with
  | [] => VUndefined
  | (k', v) :: rest => if String.eqb k k' then v else assoc k rest
  end.

(** ** Strings *)

(** [Buffer.byteLength(s)] for a string. *)
Definition byteLength (s : string) : Z := Z.of_nat (String.length s).

(** ** Numbers *)

(** The rounding of an integer to 53 significant bits, ties to even. *)
Definition round53 (n : Z) : Z :=
  let a := Z.abs n in
  if a <? 9007199254740992 then n else
  let u := 2 ^ (Z.log2 a - 52) in
  let q := a / u in
  let r := a mod u in
  let m := if 2 * r <? u then q
           else if u <? 2 * r then q + 1
           else if Z.even q then q else q + 1 in
  Z.sgn n * (m * u).

(** [Number.MAX_VALUE]. *)
Definition MAX_VALUE : Z := 9007199254740991 * 2 ^ 971.

(** The number [VNum n] stands for: [n] itself up to 2^53 and wherever a
    double holds it, else the nearest double, and the largest finite one
    beyond the range. *)
Definition to_double (n : Z) : Z :=
  Z.sgn n * Z.min (Z.abs (round53 n)) MAX_VALUE.

(** The multiple of [10^p] next to the positive number [x] that is read back
    as [x], if there is one: the nearer of the two when both are, the one
    with the even quotient on a tie. *)
Definition candidate (x p : Z) : option Z :=
  let g := 10 ^ p in
  let a := x / g * g in
  let b := a + g in
  match round53 a =? x, round53 b =? x with
  | true, false => Some a
  | false, true => Some b
  | true, true =>
      Some (if 2 * x <? a + b then a
            else if a + b <? 2 * x then b
            else if Z.even (a / g) then a else b)
  | false, false => None
  end.

(** The decimal with the fewest significant digits that is read back as the
    positive number [x], looked for from [p] trailing zeros downwards. *)
Fixpoint shortest_from (p : nat) (x : Z) : Z :=
  match candidate x (Z.of_nat p) with
  | Some v => v
  | None => match p with O => x | S p' => shortest_from p' x end
  end.

Definition shortest (x : Z) : Z :=
  shortest_from (String.length (pretty x) - 1) x.

Fixpoint strip_zeros (s : string) : string :=
  match s with
  | EmptyString => EmptyString
  | String c rest =>
      match strip_zeros rest with
      | EmptyString => if Ascii.eqb c "0" then EmptyString else String c ""
      | r => String c r
      end
  end.

(** The exponent form of a positive integer: its significant digits with a
    point after the first, and the power of ten. *)
Definition exponential (v : Z) : string :=
  match strip_zeros (pretty v) with
  | EmptyString => ""
  | String d rest =>
      String d (match rest with EmptyString => "" | _ => "." +:+ rest end)
      +:+ "e+" +:+ pretty (Z.of_nat (String.length (pretty v)) - 1)
  end.

(** [String(n)] for the number [VNum n]: all the digits up to 2^53; beyond,
    the shortest digits that are read back as the number, followed by zeros
    up to 21 digits and in exponent form from there. *)
Definition String_of_number (n : Z) : string :=
  if Z.abs n <? 9007199254740992 then pretty n else
  let v := shortest (Z.abs (to_double n)) in
  (if n <? 0 then "-" else "")
  +:+ (if (String.length (pretty v) <=? 21)%nat then pretty v
       else exponential v).

Definition dquote : ascii := "034"%char.
Definition backslash : ascii := "092"%char.

Definition hex_digit (n : N) : ascii :=
  ascii_of_N (if (n <? 10)%N then 48 + n else 87 + n)%N.

(** The escape [JSON.stringify] writes for one byte of a string: the quote,
    the backslash and the control characters are escaped, every other byte
    (also those of a multi-byte UTF-8 sequence) is copied. *)
Definition json_escape (c : ascii) : string :=
  let n := N_of_ascii c in
  if (n =? 34)%N then String backslash (String dquote "")
  else if (n =? 92)%N then String backslash (String backslash "")
  else if (n =? 8)%N then String backslash "b"
  else if (n =? 9)%N then String backslash "t"
  else if (n =? 10)%N then String backslash "n"
  else if (n =? 12)%N then String backslash "f"
  else if (n =? 13)%N then String backslash "r"
  else if (n <? 32)%N then
    String backslash
      ("u00" +:+ String (hex_digit (n / 16)) (String (hex_digit (n mod 16)) ""))
  else String c "".

Fixpoint json_escape_all (s : string) : string :=
  match s with
  | EmptyString => ""
  | String c rest => json_escape c +:+ json_escape_all rest
  end.

Definition json_quote (s : string) : string :=
  String dquote (json_escape_all s +:+ String dquote "").

Fixpoint join_comma (l : list string) : string :=
  match l with
  | [] => ""
  | [x] => x
  | x :: rest => x +:+ "," +:+ join_comma rest
  end.

(** ** JSON.stringify *)

Inductive json_result : Type :=
| JsonText (s : string)
| JsonUndefined
| JsonThrows (e : exn).

Definition bigint_error : exn :=
  TypeError "Do not know how to serialize a BigInt".

(** What [Buffer.byteLength(undefined)] throws. *)
Definition byteLength_error : exn :=
  TypeError
    ("The " +:+ String dquote ("string" +:+ String dquote
       (" argument must be of type string or an instance of Buffer"
        +:+ " or ArrayBuffer. Received undefined"))).

(** [Buffer.prototype.toJSON] followed by serialization. *)
Definition json_of_buffer (bytes : list byte) : string :=
  "{" +:+ json_quote "type" +:+ ":" +:+ json_quote "Buffer" +:+ ","
      +:+ json_quote "data" +:+ ":["
      +:+ join_comma (map (fun b => pretty (Byte.to_N b)) bytes) +:+ "]}".

(** What [%TypedArray%.prototype.keys] throws when called on an object that
    is no typed array. *)
Definition not_typed_array_error : exn :=
  TypeError "this is not a typed array.".

(** [v.k] for the properties this file reads: an enumerable own property of
    an object-shaped value, and the method [keys] an array and a [Buffer]
    inherit; [undefined] otherwise. *)
Definition field (k : string) (err : value) : value :=
  match err with
  | VObject props | VStream props | VError _ _ _ props => assoc k props
  | VArray _ =>
      if String.eqb k "keys" then VBuiltin Array_prototype_keys
      else VUndefined
  | VBuffer _ =>
      if String.eqb k "keys" then VBuiltin TypedArray_prototype_keys
      else VUndefined
  | _ => VUndefined
  end.

(** *** The order of the properties of an object *)

Fixpoint parse_decimal (acc : N) (s : string) : option N :=
  match s with
  | EmptyString => Some acc
  | String c rest =>
      let d := N_of_ascii c in
      if ((48 <=? d) && (d <=? 57))%N
      then parse_decimal (10 * acc + (d - 48))%N rest
      else None
  end.

(** The array index a property key denotes, if any: the key is the decimal
    numeral, without leading zeros, of an integer below 2^32 - 1. *)
Definition array_index (k : string) : option N :=
  match k with
  | EmptyString => None
  | _ =>
      match parse_decimal 0 k with
      | Some n =>
          if String.eqb (pretty n) k && (n <? 4294967295)%N then Some n
          else None
      | None => None
      end
  end.

(** Of several entries with one key the first is the property. *)
Fixpoint first_wins {A} (props : list (string * A)) : list (string * A) :=
  match props with
  | [] => []
  | (k, v) :: rest =>
      (k, v) :: List.filter (fun kv => negb (String.eqb k (fst kv)))
                            (first_wins rest)
  end.

Fixpoint insert_by_index {A} (n : N) (kv : string * A)
    (l : list (N * (string * A))) : list (N * (string * A)) :=
  match l with
  | [] => [(n, kv)]
  | (m, kv') :: rest =>
      if (n <? m)%N then (n, kv) :: l
      else (m, kv') :: insert_by_index n kv rest
  end.

(** The order in which JavaScript goes through the properties of an object:
    the array indices in ascending order, then the other keys in insertion
    order. *)
Definition enumerate {A} (props : list (string * A)) : list (string * A) :=
  let props := first_wins props in
  let indexed :=
    foldr (fun kv acc =>
             match array_index (fst kv) with
             | Some n => insert_by_index n kv acc
             | None => acc
             end) [] props in
  map snd indexed
  ++ List.filter (fun kv => match array_index (fst kv) with
                            | None => true
                            | Some _ => false
                            end) props.

(** The members of an object from the serializations of its properties, in
    the order given: a property whose value serializes to undefined is left
    out, and the first one that throws makes the whole throw. *)
Fixpoint members (l : list (string * json_result)) : exn + list string :=
  match l with
  | [] => inr []
  | (k, JsonThrows e) :: _ => inl e
  | (k, JsonUndefined) :: rest => members rest
  | (k, JsonText s) :: rest =>
      match members rest with
      | inl e => inl e
      | inr l' => inr ((json_quote k +:+ ":" +:+ s) :: l')
      end
  end.

Definition join_members (l : list (string * json_result)) : json_result :=
  match members l with
  | inl e => JsonThrows e
  | inr l' => JsonText ("{" +:+ join_comma l' +:+ "}")
  end.

(** [JSON.stringify(v)].  An array writes [null] for an element that
    serializes to undefined, an object goes through its properties in the
    order of [enumerate], and a [BigInt] anywhere makes the call throw.  A
    function serializes to undefined.  An object with a function as [toJSON]
    property is replaced by what the function returns: the method [keys] of
    arrays returns an iterator, an object without properties, and that of
    typed arrays throws. *)
Fixpoint JSON_stringify (v : value) : json_result :=
  let results :=
    fix results (props : list (string * value))
      : list (string * json_result) :=
      match props with
      | [] => []
      | (k, x) :: rest => (k, JSON_stringify x) :: results rest
      end in
  let object props :=
    match assoc "toJSON" props with
    | VBuiltin Array_prototype_keys => JsonText "{}"
    | VBuiltin TypedArray_prototype_keys => JsonThrows not_typed_array_error
    | _ => join_members (enumerate (results props))
    end in
  match v with
  | VUndefined => JsonUndefined
  | VNull => JsonText "null"
  | VBool b => JsonText (if b then "true" else "false")
  | VNum n => JsonText (String_of_number n)
  | VBigInt _ => JsonThrows bigint_error
  | VStr s => JsonText (json_quote s)
  | VBuffer bytes => JsonText (json_of_buffer bytes)
  | VArray items =>
      let elements :=
        fix elements (l : list value) : exn + list string :=
          match l with
          | [] => inr []
          | x :: rest =>
              match JSON_stringify x with
              | JsonThrows e => inl e
              | JsonUndefined =>
                  match elements rest with
                  | inl e => inl e
                  | inr l' => inr ("null" :: l')
                  end
              | JsonText s =>
                  match elements rest with
                  | inl e => inl e
                  | inr l' => inr (s :: l')
                  end
              end
          end in
      match elements items with
      | inl e => JsonThrows e
      | inr l => JsonText ("[" +:+ join_comma l +:+ "]")
      end
  | VObject props => object props
  | VStream props => object props
  | VError _ _ _ props => object props
  | VBuiltin _ => JsonUndefined
  end.

(** ** Exceptions and state *)

Inductive outcome (A : Type) : Type :=
| Ok (a : A)
| Throw (e : exn).
Arguments Ok {A} a.
Arguments Throw {A} e.

(** A computation over a mutable state [S] that returns or throws; what it
    wrote before throwing stays written. *)
Definition M (S A : Type) : Type := S -> outcome A * S.

#[export] Instance M_ret {S} : MRet (M S) := fun A a s => (Ok a, s).

#[export] Instance M_bind {S} : MBind (M S) := fun A B f m s =>
  match m s with
  | (Ok a, s') => f a s'
  | (Throw e, s') => (Throw e, s')
  end.

Definition gets {S A} (f : S -> A) : M S A := fun s => (Ok (f s), s).
Definition modify {S} (f : S -> S) : M S unit := fun s => (Ok tt, f s).
Definition throw {S A} (e : exn) : M S A := fun s => (Throw e, s).

(** ** The transport handles *)

(** The request handle ([http.IncomingMessage]), with the fields this file
    reads. *)
Record IncomingMessage : Type := {
  url : string;
  method : string;
  httpVersionMajor : Z
}.

(** What one terminal call hands to the connection. *)
Inductive payload : Type :=
| NoPayload
| Text (s : string)
| Bytes (b : list byte).

(** The terminal calls on the response handle: [res.end(..)] and
    [body.pipe(res)], the latter with the properties of the piped stream. *)
Inductive write : Type :=
| End (p : payload)
| Piped (source : list (string * value)).

(** The callbacks this file attaches to the response handle: only
    [err => ctx.onerror(err)]. *)
Inductive listener : Type :=
| CtxOnerror.

(** The response handle ([http.ServerResponse]).  Header names are stored in
    lower case, as Node does; [statusMessage] is [None] while undefined;
    [writes] is the log of terminal calls, oldest first; [finished_listeners]
    are the callbacks attached with [onFinished]. *)
Record ServerResponse : Type := {
  statusCode : Z;
  statusMessage : option string;
  headers : gmap string string;
  headersSent : bool;
  writable : bool;
  writes : list write;
  finished_listeners : list listener
}.

Definition with_statusCode (n : Z) (r : ServerResponse) : ServerResponse :=
  {| statusCode := n; statusMessage := statusMessage r; headers := headers r;
     headersSent := headersSent r; writable := writable r; writes := writes r;
     finished_listeners := finished_listeners r |}.

Definition with_headers (h : gmap string string) (r : ServerResponse)
  : ServerResponse :=
  {| statusCode := statusCode r; statusMessage := statusMessage r;
     headers := h; headersSent := headersSent r; writable := writable r;
     writes := writes r; finished_listeners := finished_listeners r |}.

Definition with_writable (b : bool) (r : ServerResponse) : ServerResponse :=
  {| statusCode := statusCode r; statusMessage := statusMessage r;
     headers := headers r; headersSent := headersSent r; writable := b;
     writes := writes r; finished_listeners := finished_listeners r |}.

Definition with_listeners (l : list listener) (r : ServerResponse)
  : ServerResponse :=
  {| statusCode := statusCode r; statusMessage := statusMessage r;
     headers := headers r; headersSent := headersSent r;
     writable := writable r; writes := writes r; finished_listeners := l |}.

(** [res.end(p)]: the payload goes out, the headers with it, and the response
    is over. *)
Definition end_ (p : payload) (r : ServerResponse) : ServerResponse :=
  {| statusCode := statusCode r; statusMessage := statusMessage r;
     headers := headers r; headersSent := true; writable := false;
     writes := writes r ++ [End p];
     finished_listeners := finished_listeners r |}.

(** [stream.pipe(res)]: the stream is attached and will write later. *)
Definition pipe_into (source : list (string * value)) (r : ServerResponse)
  : ServerResponse :=
  {| statusCode := statusCode r; statusMessage := statusMessage r;
     headers := headers r; headersSent := headersSent r;
     writable := writable r; writes := writes r ++ [Piped source];
     finished_listeners := finished_listeners r |}.

(** ** The context, as the finalizer sees it *)

(** The per-request state the dispatcher and the finalizer read and write: the
    two transport handles, the own property [respond] of the context, and the
    body and explicit-null flag kept by the response facade. *)
Record context : Type := {
  req : IncomingMessage;
  res : ServerResponse;
  respond_flag : value;
  body : value;
  explicitNullBody : bool
}.

Definition with_res (r : ServerResponse) (c : context) : context :=
  {| req := req c; res := r; respond_flag := respond_flag c; body := body c;
     explicitNullBody := explicitNullBody c |}.

Definition with_body (v : value) (c : context) : context :=
  {| req := req c; res := res c; respond_flag := respond_flag c; body := v;
     explicitNullBody := explicitNullBody c |}.

Definition with_respond_flag (v : value) (c : context) : context :=
  {| req := req c; res := res c; respond_flag := v; body := body c;
     explicitNullBody := explicitNullBody c |}.

Definition on_res (f : ServerResponse -> ServerResponse) : M context unit :=
  modify (fun c => with_res (f (res c)) c).

(** ** The [statuses] package *)

(** [statuses.empty[code]]: the status codes that take no body. *)
Definition statuses_empty (code : Z) : bool :=
  (code =? 204) || (code =? 205) || (code =? 304).

(** [statuses[code]], the table of standard reason phrases of the package,
    taken as given; [None] where the table has no entry. *)
Class Statuses : Type := status_message : Z -> option string.

(** A table with a few of the standard phrases, for running the definitions
    on concrete requests. *)
Definition sample_statuses : Statuses := fun code =>
  if code =? 200 then Some "OK"
  else if code =? 204 then Some "No Content"
  else if code =? 404 then Some "Not Found"
  else if code =? 500 then Some "Internal Server Error"
  else None.

(** ** Facade accessors *)

Definition lower_ascii (c : ascii) : ascii :=
  let n := N_of_ascii c in
  if ((65 <=? n) && (n <=? 90))%N then ascii_of_N (n + 32) else c.

(** [String.prototype.toLowerCase] on header names (ASCII). *)
Fixpoint toLowerCase (s : string) : string :=
  match s with
  | EmptyString => EmptyString
  | String c rest => String (lower_ascii c) (toLowerCase rest)
  end.

(** Modelled from the spec: the accessors of [lib/context.js],
    [lib/request.js] and [lib/response.js] that the finalizer calls are not
    part of this file.  They are the read and write operations the spec
    names on the response-state bag and on the transport handles: the status
    is the status code of the response handle, the method that of the
    request handle, writability is the writability flag of the response
    handle, and headers are looked up, set and removed by name without regard
    to case. *)
Definition ctx_status (c : context) : Z := statusCode (res c).

Definition ctx_method (c : context) : string := method (req c).

Definition ctx_writable (c : context) : bool := writable (res c).

Definition response_has (field : string) (c : context) : bool :=
  bool_decide (is_Some (headers (res c) !! toLowerCase field)).

Definition response_set (field val : string) : M context unit :=
  on_res (fun r => with_headers (<[toLowerCase field := val]> (headers r)) r).

Definition response_remove (field : string) : M context unit :=
  on_res (fun r => with_headers (delete (toLowerCase field) (headers r)) r).

(** Modelled from the spec: [ctx.message], the human-readable status message:
    the message of the response handle when it has one, else the standard
    phrase for the status code; [None] when neither exists. *)
Definition ctx_message `{Statuses} (c : context) : option string :=
  match statusMessage (res c) with
  | Some m => if String.eqb m "" then status_message (ctx_status c) else Some m
  | None => status_message (ctx_status c)
  end.

(** Modelled from the spec: [ctx.body = null] clears the body. *)
Definition set_body_null : M context unit := modify (with_body VNull).

(** Modelled from the spec: [ctx.type = 'text'] sets the content type to plain
    text. *)
Definition set_type_text : M context unit :=
  response_set "Content-Type" "text/plain; charset=utf-8".

(** Modelled from the spec: [ctx.length = n] sets the content length. *)
Definition set_length (n : Z) : M context unit :=
  response_set "Content-Length" (String_of_number n).

(** Modelled from the spec: [ctx.response.length] with no content-length
    header set, the length of the would-be body: the byte length of a string
    or of a byte sequence, the byte length of the serialization of a
    structured value, and undefined when there is no body or the body is a
    stream (whose length is not computed). *)
Definition response_length : M context value := fun c =>
  let b := body c in
  if negb (truthy b) || instanceof_Stream b then (Ok VUndefined, c)
  else match b with
       | VStr s => (Ok (VNum (byteLength s)), c)
       | VBuffer bytes => (Ok (VNum (Z.of_nat (length bytes))), c)
       | _ => match JSON_stringify b with
              | JsonText s => (Ok (VNum (byteLength s)), c)
              | JsonUndefined =>
                  (Throw byteLength_error, c)
              | JsonThrows e => (Throw e, c)
              end
       end.

(** ** Response helper *)

(** [respond(ctx)].  The checks come in the order of the source; each branch
    ends in at most one terminal call on the response handle. *)
Definition respond `{Statuses} : M context unit :=
  (* allow bypassing koa *)
  flag ← gets respond_flag;
  if strict_eq_false flag then mret tt else
  w ← gets ctx_writable;
  if negb w then mret tt else
  body0 ← gets body;
  code ← gets ctx_status;
  (* ignore body *)
  if statuses_empty code then
    set_body_null;;
    on_res (end_ NoPayload)
  else
  m ← gets ctx_method;
  if String.eqb "HEAD" m then
    sent ← gets (fun c => headersSent (res c));
    has ← gets (response_has "Content-Length");
    (if negb sent && negb has then
       len ← response_length;
       match len with
       | VNum n => set_length n
       | _ => mret tt
       end
     else mret tt);;
    on_res (end_ NoPayload)
  else
  (* status body *)
  if is_nullish body0 then
    explicit ← gets explicitNullBody;
    if (explicit : bool) then
      response_remove "Content-Type";;
      response_remove "Transfer-Encoding";;
      on_res (end_ NoPayload)
    else
      major ← gets (fun c => httpVersionMajor (req c));
      msg ← gets ctx_message;
      let text :=
        if 2 <=? major then String_of_number code
        else match msg with
             | Some s => if String.eqb s "" then String_of_number code else s
             | None => String_of_number code
             end in
      sent ← gets (fun c => headersSent (res c));
      (if negb sent then
         set_type_text;;
         set_length (byteLength text)
       else mret tt);;
      on_res (end_ (Text text))
  else
  (* responses *)
  match body0 with
  | VBuffer bytes => on_res (end_ (Bytes bytes))
  | VStr s => on_res (end_ (Text s))
  | VStream source => on_res (pipe_into source)
  | _ =>
      (* body: json *)
      match JSON_stringify body0 with
      | JsonThrows e => throw e
      | JsonText s =>
          sent ← gets (fun c => headersSent (res c));
          (if negb sent then set_length (byteLength s) else mret tt);;
          on_res (end_ (Text s))
      | JsonUndefined =>
          sent ← gets (fun c => headersSent (res c));
          (if negb sent then throw byteLength_error else mret tt);;
          on_res (end_ NoPayload)
      end
  end.

(** ** Request dispatcher *)

(** What the dispatcher is seen to do around one request: the finalizer was
    called, or the error callback [err => ctx.onerror(err)] was called with
    an error ([None] for a call without one). *)
Inductive event : Type :=
| RespondCalled
| OnerrorCalled (err : option exn).

(** The context together with the calls made so far. *)
Record world : Type := {
  ctx : context;
  trace : list event
}.

Definition lift {A} (m : M context A) : M world A := fun w =>
  let (r, c) := m (ctx w) in (r, {| ctx := c; trace := trace w |}).

Definition log (e : event) : M world unit :=
  modify (fun w => {| ctx := ctx w; trace := trace w ++ [e] |}).

(** [p.then(f)]: [f] runs when [p] resolved; a rejection passes through. *)
Definition then_ {A B} (p : M world A) (f : A -> M world B) : M world B :=
  p ≫= f.

(** [p.catch(h)]: [h] runs when [p] rejected, with the reason. *)
Definition catch_ {A} (p : M world A) (h : exn -> M world A) : M world A :=
  fun w =>
    match p w with
    | (Throw e, w') => h e w'
    | (Ok a, w') => (Ok a, w')
    end.

(** [ctx.onerror] belongs to [lib/context.js], which is not part of this
    file: what it does to the context when called with an error, or with
    none, is taken as given. *)
Class ContextOnerror : Type := ctx_onerror : option exn -> M context unit.

(** [err => ctx.onerror(err)]: the call is recorded and made. *)
Definition onerror_callback `{ContextOnerror} (err : option exn)
  : M world unit :=
  log (OnerrorCalled err);; lift (ctx_onerror err).

(** [onFinished(res, listener)]: the listener is attached to the response
    handle. *)
Definition onFinished (l : listener) : M context unit :=
  on_res (fun r => with_listeners (finished_listeners r ++ [l]) r).

(** The response handle closes, finishes or errors: it is no longer
    writable, and every attached listener is called once with the error, if
    any, and is detached. *)
Definition emit_finished `{ContextOnerror} (err : option exn) : M world unit :=
  ls ← gets (fun w => finished_listeners (res (ctx w)));
  lift (on_res (fun r => with_listeners [] (with_writable false r)));;
  foldr (fun (l : listener) (k : M world unit) =>
           match l with CtxOnerror => onerror_callback err end;; k)
        (mret tt : M world unit) ls.

(** [handleRequest(ctx, fnMiddleware)].  The composed middleware is a
    computation that resolves or rejects; it runs in the world of the
    request, where the transport may signal completion in the meantime. *)
Definition handleRequest `{Statuses} `{ContextOnerror}
    (fnMiddleware : M world unit) : M world unit :=
  lift (on_res (with_statusCode 404));;
  let onerror := fun err => onerror_callback (Some err) in
  let handleResponse := fun _ : unit => log RespondCalled;; lift respond in
  lift (onFinished CtxOnerror);;
  catch_ (then_ fnMiddleware handleResponse) onerror.

(** ** Objects with identity: the heap *)

Definition loc : Type := positive.

(** A property holds a reference to an object or a value without identity. *)
Inductive hval : Type :=
| HRef (l : loc)
| HPrim (v : value).

(** The prototype of an object: none, the built-in [Object.prototype],
    another object of the heap, or an object given as a value. *)
Inductive prototype : Type :=
| ProtoNull
| ProtoObject
| Proto (l : loc)
| ProtoValue (v : value).

(** An object: its prototype and its own data properties. *)
Record object : Type := {
  proto : prototype;
  props : gmap string hval
}.

Definition undefined : hval := HPrim VUndefined.

(** Property lookup along the prototype chain, at most [fuel] objects deep. *)
Fixpoint lookup_chain (fuel : nat) (h : gmap loc object) (l : loc)
    (k : string) : hval :=
  match fuel with
  | O => undefined
  | S fuel' =>
      match h !! l with
      | None => undefined
      | Some o =>
          match props o !! k with
          | Some v => v
          | None =>
              match proto o with
              | Proto p => lookup_chain fuel' h p k
              | ProtoValue v => HPrim (field k v)
              | _ => undefined
              end
          end
      end
  end.

(** [o.k]: reading a property of [undefined] or [null] throws; a value
    without identity is read with [field]. *)
Definition get_prop (o : hval) (k : string) : M (gmap loc object) hval :=
  fun h =>
    match o with
    | HRef l => (Ok (lookup_chain (S (size h)) h l k), h)
    | HPrim VUndefined =>
        (Throw (TypeError ("Cannot read properties of undefined (reading '"
                           +:+ k +:+ "')")), h)
    | HPrim VNull =>
        (Throw (TypeError ("Cannot read properties of null (reading '"
                           +:+ k +:+ "')")), h)
    | HPrim v => (Ok (HPrim (field k v)), h)
    end.

(** Allocation of a new object at an unused location. *)
Definition alloc (o : object) : M (gmap loc object) loc := fun h =>
  let l := fresh (dom h) in (Ok l, <[l := o]> h).

(** The values that are no objects. *)
Definition is_primitive (v : value) : bool :=
  match v with
  | VUndefined | VNull | VBool _ | VNum _ | VBigInt _ | VStr _ => true
  | _ => false
  end.

(** How an error message of the runtime shows a primitive value. *)
Definition String_of_primitive (v : value) : string :=
  match v with
  | VUndefined => "undefined"
  | VNull => "null"
  | VBool b => if b then "true" else "false"
  | VNum n => String_of_number n
  | VBigInt n => pretty n
  | VStr s => s
  | _ => ""
  end.

(** [Object.create(p)]: the prototype must be an object or null. *)
Definition Object_create (p : hval) : M (gmap loc object) loc :=
  match p with
  | HRef l => alloc {| proto := Proto l; props := ∅ |}
  | HPrim VNull => alloc {| proto := ProtoNull; props := ∅ |}
  | HPrim v =>
      if is_primitive v then
        throw (TypeError ("Object prototype may only be an Object or null: "
                          +:+ String_of_primitive v))
      else alloc {| proto := ProtoValue v; props := ∅ |}
  end.

(** [o.k = v] on an object whose prototype chain has no setter for [k]: the
    object gets the own property. *)
Definition set_prop (l : loc) (k : string) (v : hval)
  : M (gmap loc object) unit :=
  modify (fun h =>
    match h !! l with
    | Some o => <[l := {| proto := proto o; props := <[k := v]> (props o) |}]> h
    | None => h
    end).

(** ** Context factory *)

(** [createContext(req, res)] on the application [this]; the result is the
    new context. *)
Definition createContext (this req res : hval) : M (gmap loc object) loc :=
  tmpl ← get_prop this "context";
  context ← Object_create tmpl;
  tmpl ← get_prop this "request";
  request ← Object_create tmpl;
  set_prop context "request" (HRef request);;
  tmpl ← get_prop this "response";
  response ← Object_create tmpl;
  set_prop context "response" (HRef response);;
  set_prop response "app" this;;
  set_prop request "app" this;;
  set_prop context "app" this;;
  set_prop response "req" req;;
  set_prop request "req" req;;
  set_prop context "req" req;;
  set_prop response "res" res;;
  set_prop request "res" res;;
  set_prop context "res" res;;
  set_prop response "ctx" (HRef context);;
  set_prop request "ctx" (HRef context);;
  set_prop request "response" (HRef response);;
  set_prop response "request" (HRef request);;
  u ← get_prop req "url";
  set_prop request "originalUrl" u;;
  set_prop context "originalUrl" u;;
  state ← alloc {| proto := ProtoObject; props := ∅ |};
  set_prop context "state" (HRef state);;
  mret context.

(** ** Default error handler *)

(** The application settings the error handler reads. *)
Record Application : Type := {
  silent : value
}.

(** [Object.prototype.toString.call(err) === '[object Error]' ||
    err instanceof Error]. *)
Definition isNativeError (err : value) : bool :=
  match err with VError _ _ _ _ => true | _ => false end.

(** [Error.prototype.toString]. *)
Definition Error_toString (name message : string) : string :=
  if String.eqb name "" then message
  else if String.eqb message "" then name
  else name +:+ ": " +:+ message.

Definition newline : string := String "010"%char "".

(** A line terminator ends at byte [c], given the two bytes before it: a line
    feed, a carriage return, or the last byte of U+2028 or U+2029. *)
Definition ends_line (p2 p1 c : N) : bool :=
  ((c =? 10) || (c =? 13)
   || ((p2 =? 226) && (p1 =? 128) && ((c =? 168) || (c =? 169))))%N.

(** [s.replace(/^/gm, '  ')], scanning [s] with the two bytes before the
    current position: two spaces go in at the start of the input and after
    every line terminator. *)
Fixpoint indent_from (at_start : bool) (p2 p1 : N) (s : string) : string :=
  (if at_start then "  " else "") +:+
  match s with
  | EmptyString => ""
  | String c rest =>
      String c (indent_from (ends_line p2 p1 (N_of_ascii c)) p1 (N_of_ascii c)
                            rest)
  end.

Definition indent (s : string) : string := indent_from true 0 0 s.

(** [console.error(line)]: the state is the operator-facing error stream. *)
Definition console_error (line : string) : M (list string) unit :=
  modify (fun out => out ++ [line]).

(** [util.format('non-error thrown: %j', err)]. *)
Definition format_non_error (err : value) : M (list string) string :=
  match JSON_stringify err with
  | JsonText s => mret ("non-error thrown: " +:+ s)
  | JsonUndefined => mret "non-error thrown: undefined"
  | JsonThrows e => throw e
  end.

(** [err.stack]. *)
Definition stack_of (err : value) : option string :=
  match err with VError _ _ stack _ => stack | _ => None end.

(** [err.toString()] of a native error. *)
Definition toString (err : value) : string :=
  match err with
  | VError name message _ _ => Error_toString name message
  | _ => ""
  end.

(** [err.stack || err.toString()]. *)
Definition diagnostic (err : value) : string :=
  match stack_of err with
  | Some s => if String.eqb s "" then toString err else s
  | None => toString err
  end.

(** [onerror(err)] on the application [this]. *)
Definition onerror (this : Application) (err : value) : M (list string) unit :=
  if negb (isNativeError err) then
    text ← format_non_error err;
    throw (TypeError text)
  else
  if strict_eq_num 404 (field "status" err) || truthy (field "expose" err)
  then mret tt else
  if truthy (silent this) then mret tt else
  let msg := diagnostic err in
  console_error (newline +:+ indent msg +:+ newline).

(** ** Notions used to state the properties *)

(** The text the spec prescribes for an absent body: the status code as a
    string on protocol version 2 and later, else the status message, falling
    back to the code. *)
Definition status_text `{Statuses} (c : context) : string :=
  if 2 <=? httpVersionMajor (req c) then String_of_number (ctx_status c)
  else match ctx_message c with
       | Some s =>
           if String.eqb s "" then String_of_number (ctx_status c) else s
       | None => String_of_number (ctx_status c)
       end.


(** The context as the dispatcher hands it to the first handler: the status
    code preset and the completion observer attached. *)
Definition handlers_context (c : context) : context :=
  with_res
    (with_listeners (finished_listeners (res c) ++ [CtxOnerror])
                    (with_statusCode 404 (res c))) c.

(** The world as the dispatcher hands it to the pipeline. *)
Definition dispatched (w : world) : world :=
  {| ctx := handlers_context (ctx w); trace := trace w |}.

(** The context once the transport has signalled completion: the response is
    no longer writable and the observers are detached. *)
Definition finished (c : context) : context :=
  with_res (with_listeners [] (with_writable false (res c))) c.

(** What is asked of [ctx.onerror] for the response to be written at most
    once: one call makes at most one terminal call on the response handle,
    and none when the response is no longer writable. *)
Definition writes_at_most_once `{ContextOnerror} : Prop :=
  forall err c,
    (ctx_writable c = false ->
     writes (res (snd (ctx_onerror err c))) = writes (res c))
    /\ (writes (res (snd (ctx_onerror err c))) = writes (res c)
        \/ exists wr,
             writes (res (snd (ctx_onerror err c))) = writes (res c) ++ [wr]).

(** ** Sample requests *)

Definition sample_res : ServerResponse :=
  {| statusCode := 200; statusMessage := None; headers := ∅;
     headersSent := false; writable := true; writes := [];
     finished_listeners := [] |}.

Definition sample_context (m : string) (code : Z) (b : value) : context :=
  {| req := {| url := "/"; method := m; httpVersionMajor := 1 |};
     res := with_statusCode code sample_res;
     respond_flag := VUndefined; body := b; explicitNullBody := false |}.

Definition sample_world (m : string) : world :=
  {| ctx := sample_context m 200 VUndefined; trace := [] |}.

(** A handler that sets the body to the object [{ n: 10n }]. *)
Definition bigint_handler : M context unit :=
  modify (with_body (VObject [("n", VBigInt 10)])).

(** An error callback for running the dispatcher on concrete requests:
    called with no error, or when the headers are sent or the response is no
    longer writable, it leaves the response alone; else it answers with
    status 500. *)
Definition sample_ctx_onerror : ContextOnerror := fun err c =>
  match err with
  | None => (Ok tt, c)
  | Some _ =>
      if headersSent (res c) || negb (writable (res c)) then (Ok tt, c)
      else (Ok tt,
            with_res (end_ (Text "Internal Server Error")
                           (with_statusCode 500 (res c))) c)
  end.

(** The error of a connection that was reset. *)
Definition connection_reset : exn :=
  Raised (VError "Error" "read ECONNRESET" None []).

(** A pipeline during which the connection is reset and whose handler then
    fails. *)
Definition reset_then_fail `{ContextOnerror} : M world unit :=
  emit_finished (Some connection_reset);;
  throw (Raised (VError "Error" "write after end" None [])).

(** An application object with its three templates, a request handle with
    its [url] and a response handle, at locations 1 to 6. *)
Definition sample_heap : gmap loc object :=
  {[ 1%positive := {| proto := ProtoObject;
                      props := {[ "context" := HRef 2%positive;
                                  "request" := HRef 3%positive;
                                  "response" := HRef 4%positive ]} |};
     2%positive := {| proto := ProtoObject; props := ∅ |};
     3%positive := {| proto := ProtoObject; props := ∅ |};
     4%positive := {| proto := ProtoObject; props := ∅ |};
     5%positive := {| proto := ProtoObject;
                      props := {[ "url" := HPrim (VStr "/users?page=2") ]} |};
     6%positive := {| proto := ProtoObject; props := ∅ |} ]}.

(** The own property [k] of the object at [l], when both exist. *)
Definition own_prop (h : gmap loc object) (l : loc) (k : string)
  : option hval :=
  match h !! l with
  | Some o => props o !! k
  | None => None
  end.



(** ** Application construction *)

(** [a || b]. *)
Definition or_else (a b : value) : value := if truthy a then a else b.

(** What the constructor takes from its surroundings: the prototype of the
    class, the objects exported by [./context], [./request] and [./response],
    and [process.env.NODE_ENV]. *)
Record runtime : Type := {
  Application_prototype : prototype;
  context_module : hval;
  request_module : hval;
  response_module : hval;
  NODE_ENV : value
}.

(** [new Application(options)]: the new object gets its settings, an empty
    middleware array and its own three templates.  The bookkeeping of the
    emitter ([super()]) and the symbol-keyed [inspect] method are not
    properties a setting or a template depends on and are not represented;
    the middleware array is represented by its (empty) content. *)
Definition constructor (rt : runtime) (options : value)
  : M (gmap loc object) loc :=
  this ← alloc {| proto := Application_prototype rt; props := ∅ |};
  let options := or_else options (VObject []) in
  set_prop this "proxy"
    (HPrim (or_else (field "proxy" options) (VBool false)));;
  set_prop this "subdomainOffset"
    (HPrim (or_else (field "subdomainOffset" options) (VNum 2)));;
  set_prop this "proxyIpHeader"
    (HPrim (or_else (field "proxyIpHeader" options) (VStr "X-Forwarded-For")));;
  set_prop this "maxIpsCount"
    (HPrim (or_else (field "maxIpsCount" options) (VNum 0)));;
  set_prop this "env"
    (HPrim (or_else (field "env" options)
              (or_else (NODE_ENV rt) (VStr "development"))));;
  (if truthy (field "keys" options)
   then set_prop this "keys" (HPrim (field "keys" options))
   else mret tt);;
  set_prop this "middleware" (HPrim (VArray []));;
  c ← Object_create (context_module rt);
  set_prop this "context" (HRef c);;
  r ← Object_create (request_module rt);
  set_prop this "request" (HRef r);;
  s ← Object_create (response_module rt);
  set_prop this "response" (HRef s);;
  mret this.

(** [null == v] and [ToBoolean] on what a property can hold. *)
Definition hval_nullish (v : hval) : bool :=
  match v with HPrim p => is_nullish p | HRef _ => false end.

Definition hval_truthy (v : hval) : bool :=
  match v with HPrim p => truthy p | HRef _ => true end.

(** [only(obj, keys)] of the package of that name: a new object with those
    of the listed properties of [obj] that are neither null nor undefined. *)
Definition only (obj : hval) (keys : list string) : M (gmap loc object) loc :=
  obj ← (if hval_truthy obj then mret obj
         else l ← alloc {| proto := ProtoObject; props := ∅ |};
              mret (HRef l));
  ret ← alloc {| proto := ProtoObject; props := ∅ |};
  foldr (fun (key : string) (k : M (gmap loc object) unit) =>
           v ← get_prop obj key;
           (if hval_nullish v then mret tt else set_prop ret key v);;
           k)
        (mret tt) keys;;
  mret ret.

(** [toJSON()] and [inspect()] on the application [this]. *)
Definition toJSON (this : hval) : M (gmap loc object) loc :=
  only this ["subdomainOffset"; "proxy"; "env"].

Definition inspect (this : hval) : M (gmap loc object) loc := toJSON this.

(** ** Middleware registration *)

(** A function as [use] sees it: its [_name] and [name] properties, whether
    it is a generator function, and what it does when called, which [use]
    never looks at. *)
Record function_ (B : Type) : Type := {
  fn__name : value;
  fn_name : value;
  isGeneratorFunction : bool;
  fn_call : B
}.
Arguments fn__name {B} _.
Arguments fn_name {B} _.
Arguments isGeneratorFunction {B} _.
Arguments fn_call {B} _.

(** What a caller can hand to [use]: a value that is no function, or a
    function. *)
Inductive argument (B : Type) : Type :=
| NoFunction (v : value)
| Fn (f : function_ B).
Arguments NoFunction {B} v.
Arguments Fn {B} f.

(** [convert(fn)] of [koa-convert], taken as given. *)
Class Convert (B : Type) : Type := convert : function_ B -> function_ B.

(** The calls [use] makes to the logging helpers. *)
Inductive notice : Type :=
| Deprecate (message : string)
| Debug (format : string) (arg : value).

(** The part of the application [use] works on: the middleware array and the
    notices given so far. *)
Record registry (B : Type) : Type := {
  middleware : list (function_ B);
  notices : list notice
}.
Arguments middleware {B} _.
Arguments notices {B} _.

Definition generators_deprecated : string :=
  "Support for generators will be removed in v3. "
  +:+ "See the documentation for examples of how to convert old middleware "
  +:+ "https://github.com/koajs/koa/blob/master/docs/migration.md".

Definition notify {B} (n : notice) : M (registry B) unit :=
  modify (fun r => {| middleware := middleware r;
                      notices := notices r ++ [n] |}).

Definition push {B} (f : function_ B) : M (registry B) unit :=
  modify (fun r => {| middleware := middleware r ++ [f];
                      notices := notices r |}).

(** [use(fn)]; returning [this] is what lets calls be chained. *)
Definition use {B} `{Convert B} (fn : argument B) : M (registry B) unit :=
  match fn with
  | NoFunction _ => throw (TypeError "middleware must be a function!")
  | Fn f =>
      f ← (if isGeneratorFunction f
           then notify (Deprecate generators_deprecated);; mret (convert f)
           else mret f);
      notify (Debug "use %s"
                (or_else (fn__name f) (or_else (fn_name f) (VStr "-"))));;
      push f
  end.

(** [app.use(a1).use(a2)...]: a chain of registrations. *)
Fixpoint use_chain {B} `{Convert B} (fns : list (argument B))
  : M (registry B) unit :=
  match fns with
  | [] => mret tt
  | fn :: rest => use fn;; use_chain rest
  end.

(** What [use] stores for a function, and the notices it gives for it. *)
Definition stored {B} `{Convert B} (f : function_ B) : function_ B :=
  if isGeneratorFunction f then convert f else f.

Definition notices_for {B} `{Convert B} (f : function_ B) : list notice :=
  (if isGeneratorFunction f then [Deprecate generators_deprecated] else [])
  ++ [Debug "use %s"
        (or_else (fn__name (stored f))
                 (or_else (fn_name (stored f)) (VStr "-")))].

(** A heap with the three module objects at locations 1 to 3, a request
    handle with its [url] at 4 and a response handle at 5. *)
Definition sample_modules : gmap loc object :=
  {[ 1%positive := {| proto := ProtoObject;
                      props := {[ "inspect" := HPrim (VStr "method") ]} |};
     2%positive := {| proto := ProtoObject; props := ∅ |};
     3%positive := {| proto := ProtoObject; props := ∅ |};
     4%positive := {| proto := ProtoObject;
                      props := {[ "url" := HPrim (VStr "/") ]} |};
     5%positive := {| proto := ProtoObject; props := ∅ |} ]}.

Definition sample_runtime : runtime :=
  {| Application_prototype := ProtoObject;
     context_module := HRef 1%positive;
     request_module := HRef 2%positive;
     response_module := HRef 3%positive;
     NODE_ENV := VUndefined |}.

(** A response handle whose headers are already on the wire. *)
Definition sample_sent_context (b : value) : context :=
  {| req := {| url := "/"; method := "GET"; httpVersionMajor := 1 |};
     res := {| statusCode := 200; statusMessage := None;
               headers := {[ "content-type" := "text/html" ]};
               headersSent := true; writable := true; writes := [];
               finished_listeners := [] |};
     respond_flag := VUndefined; body := b; explicitNullBody := false |}.

(** The sample heap with a helper defined on the context template of the
    application. *)
Definition sample_heap_with_helper : gmap loc object :=
  <[2%positive := {| proto := ProtoObject;
                     props := {[ "render" := HPrim (VStr "helper") ]} |}]>
    sample_heap.

(** The properties the factory sets on the context itself. *)
Definition context_links : list string :=
  ["request"; "response"; "app"; "req"; "res"; "originalUrl"; "state"].

(** The settings of an application with their defaults. *)
Definition defaults (rt : runtime) : list (string * value) :=
  [("proxy", VBool false);
   ("subdomainOffset", VNum 2);
   ("proxyIpHeader", VStr "X-Forwarded-For");
   ("maxIpsCount", VNum 0);
   ("env", or_else (NODE_ENV rt) (VStr "development"))].

(** * Properties *)

(** ** Values *)

Lemma strict_eq_false_true (v : value) :
  strict_eq_false v = true <-> v = VBool false.
Proof.
  split; [| intros ->; reflexivity].
  destruct v as [| |[]| | | | | | | | |]; simpl; congruence.
Qed.

Lemma strict_eq_false_other (v : value) :
  v <> VBool false -> strict_eq_false v = false.
Proof.
  intros Hv. destruct (strict_eq_false v) eqn:E; [| reflexivity].
  apply strict_eq_false_true in E. contradiction.
Qed.

Lemma not_head_eqb (m : string) : m <> "HEAD" -> String.eqb "HEAD" m = false.
Proof. intros Hm. apply String.eqb_neq. congruence. Qed.

(** ** The finalizer, rule by rule *)

(** Unfolds the monad so that the next test of [respond] comes to the top. *)
Ltac step :=
  cbv beta iota zeta delta
    [respond mbind M_bind mret M_ret gets modify throw on_res set_body_null
     set_length set_type_text response_set response_remove].

(** Runs [respond] along the branch the hypotheses select. *)
Ltac run :=
  step;
  repeat (match goal with
          | Hb : ?x = _ |- context [?x] => rewrite Hb
          end; cbv beta iota delta [negb andb orb]).

Section Finalizer.
Context `{Statuses}.

Lemma respond_bypass (c : context) :
  respond_flag c = VBool false -> respond c = (Ok tt, c).
Proof. intros Hf. step. rewrite Hf. reflexivity. Qed.

Lemma respond_unwritable (c : context) :
  ctx_writable c = false -> respond c = (Ok tt, c).
Proof.
  intros Hw. step.
  destruct (strict_eq_false (respond_flag c)); run; reflexivity.
Qed.

Lemma respond_empty (c : context) :
  respond_flag c <> VBool false -> ctx_writable c = true ->
  statuses_empty (ctx_status c) = true ->
  respond c = (Ok tt, with_res (end_ NoPayload (res c)) (with_body VNull c)).
Proof. intros Hf%strict_eq_false_other Hw He. run. reflexivity. Qed.

Lemma response_length_state (c : context) : snd (response_length c) = c.
Proof.
  unfold response_length.
  destruct (negb (truthy (body c)) || instanceof_Stream (body c));
    [reflexivity |].
  destruct (body c); try reflexivity;
    destruct (JSON_stringify _); reflexivity.
Qed.

Lemma respond_head (c : context) :
  respond_flag c <> VBool false -> ctx_writable c = true ->
  statuses_empty (ctx_status c) = false ->
  ctx_method c = "HEAD" ->
  respond c =
    if negb (headersSent (res c)) && negb (response_has "Content-Length" c)
    then match response_length c with
         | (Ok (VNum n), _) =>
             (Ok tt,
              with_res
                (end_ NoPayload
                   (with_headers
                      (<["content-length" := String_of_number n]>
                         (headers (res c))) (res c))) c)
         | (Ok _, _) => (Ok tt, with_res (end_ NoPayload (res c)) c)
         | (Throw e, _) => (Throw e, c)
         end
    else (Ok tt, with_res (end_ NoPayload (res c)) c).
Proof.
  intros Hf%strict_eq_false_other Hw He Hm.
  assert (Hm' : String.eqb "HEAD" (ctx_method c) = true)
    by (rewrite Hm; reflexivity).
  clear Hm. run.
  destruct (headersSent (res c)); [reflexivity |].
  destruct (response_has "Content-Length" c); [reflexivity |].
  cbv beta iota.
  pose proof (response_length_state c) as Hs.
  destruct (response_length c) as [[v | e] c']; simpl in Hs; subst c';
    [| reflexivity].
  destruct v; reflexivity.
Qed.

Lemma respond_absent (c : context) :
  respond_flag c <> VBool false -> ctx_writable c = true ->
  statuses_empty (ctx_status c) = false ->
  ctx_method c <> "HEAD" ->
  is_nullish (body c) = true ->
  respond c =
    if explicitNullBody c then
      (Ok tt,
       with_res
         (end_ NoPayload
            (with_headers
               (delete "transfer-encoding"
                  (delete "content-type" (headers (res c)))) (res c))) c)
    else if headersSent (res c) then
      (Ok tt, with_res (end_ (Text (status_text c)) (res c)) c)
    else
      (Ok tt,
       with_res
         (end_ (Text (status_text c))
            (with_headers
               (<["content-length" :=
                    String_of_number (byteLength (status_text c))]>
                  (<["content-type" := "text/plain; charset=utf-8"]>
                     (headers (res c)))) (res c))) c).
Proof.
  intros Hf%strict_eq_false_other Hw He Hm%not_head_eqb Hb.
  run.
  destruct (explicitNullBody c); [reflexivity |].
  destruct (headersSent (res c)); reflexivity.
Qed.

Lemma respond_present (c : context) :
  respond_flag c <> VBool false -> ctx_writable c = true ->
  statuses_empty (ctx_status c) = false ->
  ctx_method c <> "HEAD" ->
  is_nullish (body c) = false ->
  respond c =
    match body c with
    | VBuffer bytes => (Ok tt, with_res (end_ (Bytes bytes) (res c)) c)
    | VStr s => (Ok tt, with_res (end_ (Text s) (res c)) c)
    | VStream source => (Ok tt, with_res (pipe_into source (res c)) c)
    | b =>
        match JSON_stringify b with
        | JsonThrows e => (Throw e, c)
        | JsonText s =>
            if headersSent (res c)
            then (Ok tt, with_res (end_ (Text s) (res c)) c)
            else
              (Ok tt,
               with_res
                 (end_ (Text s)
                    (with_headers
                       (<["content-length" :=
                            String_of_number (byteLength s)]>
                          (headers (res c))) (res c))) c)
        | JsonUndefined =>
            if headersSent (res c)
            then (Ok tt, with_res (end_ NoPayload (res c)) c)
            else
              (Throw byteLength_error, c)
        end
    end.
Proof.
  intros Hf%strict_eq_false_other Hw He Hm%not_head_eqb Hb.
  run.
  destruct (body c) eqn:Eb; try reflexivity;
    cbv beta iota;
    match goal with
    | |- context [JSON_stringify ?v] => destruct (JSON_stringify v)
    end;
    cbv beta iota; destruct (headersSent (res c)); reflexivity.
Qed.
End Finalizer.

Section FinalizerGeneral.
Context `{Statuses}.

(** Once past the bypass and writability checks the finalizer either throws
    before writing or makes exactly one terminal call. *)
Lemma respond_terminal (c : context) :
  respond_flag c <> VBool false -> ctx_writable c = true ->
  (exists e, fst (respond c) = Throw e
             /\ writes (res (snd (respond c))) = writes (res c))
  \/ (exists w, fst (respond c) = Ok tt
                /\ writes (res (snd (respond c))) = writes (res c) ++ [w]).
Proof.
  intros Hf Hw.
  destruct (statuses_empty (ctx_status c)) eqn:He.
  { rewrite respond_empty by assumption. right. eexists. split; reflexivity. }
  destruct (String.eqb "HEAD" (ctx_method c)) eqn:Hm.
  { apply String.eqb_eq in Hm. symmetry in Hm.
    rewrite respond_head by assumption.
    destruct (negb _ && negb _).
    - destruct (response_length c) as [[[] | e] c'];
        solve [left; eexists; split; reflexivity
              | right; eexists; split; reflexivity].
    - right. eexists. split; reflexivity. }
  apply String.eqb_neq in Hm.
  assert (Hm' : ctx_method c <> "HEAD") by congruence.
  destruct (is_nullish (body c)) eqn:Hb.
  { rewrite respond_absent by assumption.
    destruct (explicitNullBody c); [| destruct (headersSent (res c))];
      right; eexists; split; reflexivity. }
  rewrite respond_present by assumption.
  destruct (body c); try discriminate Hb;
    try solve [right; eexists; split; reflexivity];
    match goal with
    | |- context [JSON_stringify ?v] => destruct (JSON_stringify v)
    end;
    try destruct (headersSent (res c));
    solve [left; eexists; split; reflexivity
          | right; eexists; split; reflexivity].
Qed.

(** Whatever the checks decide, the finalizer adds at most one terminal
    call to those already made. *)
Lemma respond_writes_at_most_once (c : context) :
  writes (res (snd (respond c))) = writes (res c)
  \/ exists w, writes (res (snd (respond c))) = writes (res c) ++ [w].
Proof.
  destruct (strict_eq_false (respond_flag c)) eqn:Hf.
  { apply strict_eq_false_true in Hf. rewrite respond_bypass by assumption.
    left. reflexivity. }
  assert (Hf' : respond_flag c <> VBool false).
  { intros E. apply strict_eq_false_true in E. congruence. }
  destruct (ctx_writable c) eqn:Hw.
  - destruct (respond_terminal c Hf' Hw) as [(e & _ & Hx) | (w & _ & Hx)];
      [left | right; exists w]; exact Hx.
  - rewrite respond_unwritable by assumption. left. reflexivity.
Qed.

(** Any two values of the flag other than [false] lead to the same
    finalization. *)
Lemma respond_flag_irrelevant (c : context) (v v' : value) :
  v <> VBool false -> v' <> VBool false ->
  respond (with_respond_flag v c) =
    (fst (respond (with_respond_flag v' c)),
     with_respond_flag v (snd (respond (with_respond_flag v' c)))).
Proof.
  intros Hv Hv'.
  set (c1 := with_respond_flag v c). set (c2 := with_respond_flag v' c).
  assert (H1 : respond_flag c1 <> VBool false) by exact Hv.
  assert (H2 : respond_flag c2 <> VBool false) by exact Hv'.
  destruct (ctx_writable c) eqn:Hw.
  2:{ rewrite (respond_unwritable c1), (respond_unwritable c2) by exact Hw.
      reflexivity. }
  destruct (statuses_empty (ctx_status c)) eqn:He.
  { rewrite (respond_empty c1), (respond_empty c2) by assumption.
    reflexivity. }
  destruct (String.eqb "HEAD" (ctx_method c)) eqn:Hm.
  { apply String.eqb_eq in Hm. symmetry in Hm.
    rewrite (respond_head c1), (respond_head c2) by assumption.
    change (headersSent (res c1)) with (headersSent (res c)).
    change (headersSent (res c2)) with (headersSent (res c)).
    change (response_has "Content-Length" c1)
      with (response_has "Content-Length" c).
    change (response_has "Content-Length" c2)
      with (response_has "Content-Length" c).
    destruct (negb _ && negb _); [| reflexivity].
    unfold response_length. change (body c1) with (body c).
    change (body c2) with (body c).
    destruct (negb (truthy (body c)) || instanceof_Stream (body c));
      [reflexivity |].
    destruct (body c); try reflexivity;
      match goal with
      | |- context [JSON_stringify ?b] => destruct (JSON_stringify b)
      end; reflexivity. }
  apply String.eqb_neq in Hm.
  assert (Hm' : ctx_method c <> "HEAD") by congruence.
  destruct (is_nullish (body c)) eqn:Hb.
  { rewrite (respond_absent c1), (respond_absent c2) by assumption.
    change (explicitNullBody c1) with (explicitNullBody c).
    change (explicitNullBody c2) with (explicitNullBody c).
    change (headersSent (res c1)) with (headersSent (res c)).
    change (headersSent (res c2)) with (headersSent (res c)).
    destruct (explicitNullBody c); [| destruct (headersSent (res c))];
      reflexivity. }
  rewrite (respond_present c1), (respond_present c2) by assumption.
  change (body c1) with (body c). change (body c2) with (body c).
  change (headersSent (res c1)) with (headersSent (res c)).
  change (headersSent (res c2)) with (headersSent (res c)).
  destruct (body c); try reflexivity;
    match goal with
    | |- context [JSON_stringify ?b] => destruct (JSON_stringify b)
    end;
    try destruct (headersSent (res c)); reflexivity.
Qed.
End FinalizerGeneral.

(** ** The finalizer, path by path *)

(** Splits on the tests of [respond] in their order and rewrites [respond c]
    to what the selected rule gives. *)
Ltac respond_rules c :=
  let Hf := fresh "Hf" in
  let Hw := fresh "Hw" in
  let He := fresh "He" in
  let Hm := fresh "Hm" in
  let Hb := fresh "Hb" in
  let Hf' := fresh "Hf'" in
  let Hm' := fresh "Hm'" in
  destruct (strict_eq_false (respond_flag c)) eqn:Hf;
  [ apply strict_eq_false_true in Hf; rewrite (respond_bypass c Hf)
  | assert (Hf' : respond_flag c <> VBool false)
      by (intros E; apply strict_eq_false_true in E; congruence);
    destruct (ctx_writable c) eqn:Hw;
    [ destruct (statuses_empty (ctx_status c)) eqn:He;
      [ rewrite (respond_empty c Hf' Hw He)
      | destruct (String.eqb "HEAD" (ctx_method c)) eqn:Hm;
        [ apply String.eqb_eq in Hm; symmetry in Hm;
          rewrite (respond_head c Hf' Hw He Hm)
        | apply String.eqb_neq in Hm;
          assert (Hm' : ctx_method c <> "HEAD") by congruence;
          destruct (is_nullish (body c)) eqn:Hb;
          [ rewrite (respond_absent c Hf' Hw He Hm' Hb)
          | rewrite (respond_present c Hf' Hw He Hm' Hb) ] ] ]
    | rewrite (respond_unwritable c Hw) ] ].

(** Splits on the tests inside the selected rule. *)
Ltac respond_branches c :=
  repeat match goal with
    | |- context [negb (headersSent (res c))
                  && negb (response_has "Content-Length" c)] =>
        destruct (headersSent (res c)) eqn:?;
        destruct (response_has "Content-Length" c) eqn:?;
        cbn [negb andb]
    | |- context [match response_length c with _ => _ end] =>
        let Hs := fresh "Hs" in
        let o := fresh "o" in
        let c' := fresh "c'" in
        pose proof (response_length_state c) as Hs;
        destruct (response_length c) as [o c'] eqn:?;
        cbn [snd] in Hs; subst c'; destruct o as [[] |]
    | |- context [if explicitNullBody c then _ else _] =>
        destruct (explicitNullBody c) eqn:?
    | |- context [if headersSent (res c) then _ else _] =>
        destruct (headersSent (res c)) eqn:?
    | |- context [match body c with _ => _ end] =>
        destruct (body c) eqn:?
    | |- context [match JSON_stringify ?v with _ => _ end] =>
        destruct (JSON_stringify v) eqn:?
    end.

Lemma truthy_not_nullish (v : value) : truthy v = true -> is_nullish v = false.
Proof. destruct v; try reflexivity; discriminate. Qed.

(** Computing the would-be length throws only for a truthy body that the
    serializer refuses or turns into nothing. *)
Lemma response_length_throws (c : context) (e : exn) (c' : context) :
  response_length c = (Throw e, c') ->
  truthy (body c) = true
  /\ (JSON_stringify (body c) = JsonThrows e
      \/ (JSON_stringify (body c) = JsonUndefined /\ e = byteLength_error)).
Proof.
  unfold response_length.
  destruct (truthy (body c)) eqn:Ht; [| discriminate].
  cbn [negb orb].
  destruct (instanceof_Stream (body c)); [discriminate |].
  destruct (body c) eqn:Eb; try discriminate;
    destruct (JSON_stringify _) eqn:Ej; try discriminate;
    intros [= <- _]; split; auto.
Qed.

Lemma app_one_not_nil {A} (l : list A) (x : A) : l <> l ++ [x].
Proof.
  intros E. apply (f_equal length) in E. rewrite length_app in E.
  simpl in E. lia.
Qed.

Section FinalizerPaths.
Context `{Statuses}.

(** What the finalizer leaves alone, on every path. *)
Lemma respond_preserves (c : context) :
  req (snd (respond c)) = req c
  /\ respond_flag (snd (respond c)) = respond_flag c
  /\ statusCode (res (snd (respond c))) = statusCode (res c)
  /\ (body (snd (respond c)) = body c
      \/ (statuses_empty (ctx_status c) = true
          /\ body (snd (respond c)) = VNull)).
Proof.
  respond_rules c; respond_branches c; cbn;
    repeat split; auto.
Qed.

(** When the finalizer throws it has changed nothing; the body is present,
    and either the serializer threw, or it yielded nothing and the length of
    nothing was asked for because the headers were unsent. *)
Lemma respond_throws (c c' : context) (e : exn) :
  respond c = (Throw e, c') ->
  c' = c
  /\ is_nullish (body c) = false
  /\ (JSON_stringify (body c) = JsonThrows e
      \/ (JSON_stringify (body c) = JsonUndefined
          /\ e = byteLength_error
          /\ headersSent (res c) = false)).
Proof.
  respond_rules c; respond_branches c; intros Hr;
    try discriminate Hr; injection Hr as <- <-;
    (split; [reflexivity |]);
    try match goal with
      | Hl : response_length c = (Throw _, _) |- _ =>
          apply response_length_throws in Hl;
          destruct Hl as [Ht%truthy_not_nullish [Hl | [Hl ->]]]
      end;
    (split; [first [assumption | reflexivity] |]);
    first [left; congruence | right; repeat split; congruence].
Qed.
End FinalizerPaths.

(** C3: with a status code of the no-body set (204, 205, 304), and once the
    bypass and writability checks are passed, the finalizer clears the body
    of the context and ends the response with no payload, whatever body the
    handlers had set, whatever the method and the other response state. *)
Theorem respond_empty_status_clears_body `{Statuses} (c : context) (b : value) :
  respond_flag c <> VBool false ->
  ctx_writable c = true ->
  ctx_status c = 204 \/ ctx_status c = 205 \/ ctx_status c = 304 ->
  fst (respond (with_body b c)) = Ok tt
  /\ body (snd (respond (with_body b c))) = VNull
  /\ writes (res (snd (respond (with_body b c))))
     = writes (res c) ++ [End NoPayload]
  /\ statusCode (res (snd (respond (with_body b c)))) = ctx_status c.
Proof.
  intros Hf Hw Hc.
  rewrite (respond_empty (with_body b c)); try assumption.
  - repeat split; reflexivity.
  - change (ctx_status (with_body b c)) with (ctx_status c).
    unfold statuses_empty. destruct Hc as [-> | [-> | ->]]; reflexivity.
Qed.

(** A POST answered with 204 after a handler stored an object as body. *)
Lemma respond_empty_status_clears_body_witness :
  (respond_flag (sample_context "POST" 204 VUndefined) <> VBool false
   /\ ctx_writable (sample_context "POST" 204 VUndefined) = true
   /\ ctx_status (sample_context "POST" 204 VUndefined) = 204)
  /\ body (snd (@respond sample_statuses
                  (with_body (VObject [("saved", VBool true)])
                             (sample_context "POST" 204 VUndefined)))) = VNull
  /\ writes (res (snd (@respond sample_statuses
                         (with_body (VObject [("saved", VBool true)])
                                    (sample_context "POST" 204 VUndefined)))))
     = [End NoPayload].
Proof.
  split; [split; [discriminate | split; reflexivity] |].
  destruct (@respond_empty_status_clears_body sample_statuses
              (sample_context "POST" 204 VUndefined)
              (VObject [("saved", VBool true)]))
    as (_ & Hb & Hw & _);
    [discriminate | reflexivity | left; reflexivity |].
  split; [exact Hb | exact Hw].
Defined.




(** C5: with an absent body and no earlier rule matched, the explicit-null
    flag makes the finalizer strip the content-type and transfer-encoding
    headers and end with no payload; without the flag it sends the status
    text (the code as a string from protocol version 2 on, else the status
    message, else the code) and, when the headers are unsent, first sets the
    content type to plain text and the content length to the byte length of
    that text. *)
Theorem respond_null_body `{Statuses} (c : context) :
  respond_flag c <> VBool false ->
  ctx_writable c = true ->
  statuses_empty (ctx_status c) = false ->
  ctx_method c <> "HEAD" ->
  is_nullish (body c) = true ->
  (explicitNullBody c = true ->
     respond c =
       (Ok tt,
        with_res
          (end_ NoPayload
             (with_headers
                (delete "transfer-encoding"
                   (delete "content-type" (headers (res c)))) (res c))) c))
  /\ (explicitNullBody c = false -> headersSent (res c) = false ->
        respond c =
          (Ok tt,
           with_res
             (end_ (Text (status_text c))
                (with_headers
                   (<["content-length" :=
                        String_of_number (byteLength (status_text c))]>
                      (<["content-type" := "text/plain; charset=utf-8"]>
                         (headers (res c)))) (res c))) c))
  /\ (explicitNullBody c = false -> headersSent (res c) = true ->
        respond c = (Ok tt, with_res (end_ (Text (status_text c)) (res c)) c))
  /\ (2 <= httpVersionMajor (req c) ->
        status_text c = String_of_number (ctx_status c))
  /\ (httpVersionMajor (req c) < 2 ->
        forall m, ctx_message c = Some m -> m <> "" -> status_text c = m)
  /\ (httpVersionMajor (req c) < 2 ->
        ctx_message c = None \/ ctx_message c = Some "" ->
        status_text c = String_of_number (ctx_status c)).
Proof.
  intros Hf Hw He Hm Hb.
  pose proof (respond_absent c Hf Hw He Hm Hb) as Hr.
  repeat split.
  - intros Hx. rewrite Hr, Hx. reflexivity.
  - intros Hx Hs. rewrite Hr, Hx, Hs. reflexivity.
  - intros Hx Hs. rewrite Hr, Hx, Hs. reflexivity.
  - intros Hv. unfold status_text.
    destruct (Z.leb_spec 2 (httpVersionMajor (req c))); [reflexivity | lia].
  - intros Hv m Hmsg Hne. unfold status_text.
    destruct (Z.leb_spec 2 (httpVersionMajor (req c))); [lia |].
    rewrite Hmsg. apply String.eqb_neq in Hne. rewrite Hne. reflexivity.
  - intros Hv Hmsg. unfold status_text.
    destruct (Z.leb_spec 2 (httpVersionMajor (req c))); [lia |].
    destruct Hmsg as [-> | ->]; reflexivity.
Qed.

(** A GET answered with status 500 and a null body over HTTP/1. *)
Lemma respond_null_body_witness :
  (respond_flag (sample_context "GET" 500 VNull) <> VBool false
   /\ ctx_writable (sample_context "GET" 500 VNull) = true
   /\ ctx_method (sample_context "GET" 500 VNull) <> "HEAD"
   /\ is_nullish (body (sample_context "GET" 500 VNull)) = true)
  /\ @respond sample_statuses (sample_context "GET" 500 VNull) =
       (Ok tt,
        with_res
          (end_ (Text "Internal Server Error")
             (with_headers
                (<["content-length" := "21"]>
                   (<["content-type" := "text/plain; charset=utf-8"]> ∅))
                (res (sample_context "GET" 500 VNull))))
          (sample_context "GET" 500 VNull)).
Proof.
  split; [split; [discriminate | split; [reflexivity | split;
            [discriminate | reflexivity]]] |].
  destruct (@respond_null_body sample_statuses (sample_context "GET" 500 VNull))
    as (_ & Htext & _);
    [discriminate | reflexivity | reflexivity | discriminate | reflexivity |].
  exact (Htext eq_refl eq_refl).
Defined.




(** C10: only the boolean [false] in the context's [respond] property makes
    the finalizer step aside.  With [false] nothing is done; with any other
    value, falsy ones such as 0, null, undefined and the empty string
    included, finalization is the one of the default (undefined) flag: the
    writability check applies, and on a writable connection the finalizer
    makes its terminal call (or throws while serializing). *)
Theorem respond_bypass_only_false `{Statuses} (c : context) (v : value) :
  v <> VBool false ->
  respond (with_respond_flag (VBool false) c)
    = (Ok tt, with_respond_flag (VBool false) c)
  /\ respond (with_respond_flag v c)
     = (fst (respond (with_respond_flag VUndefined c)),
        with_respond_flag v (snd (respond (with_respond_flag VUndefined c))))
  /\ (ctx_writable c = false ->
        respond (with_respond_flag v c) = (Ok tt, with_respond_flag v c))
  /\ (ctx_writable c = true ->
        (exists e, fst (respond (with_respond_flag v c)) = Throw e
                   /\ writes (res (snd (respond (with_respond_flag v c))))
                      = writes (res c))
        \/ (exists w, fst (respond (with_respond_flag v c)) = Ok tt
                      /\ writes (res (snd (respond (with_respond_flag v c))))
                         = writes (res c) ++ [w])).
Proof.
  intros Hv. split; [| split; [| split]].
  - apply respond_bypass. reflexivity.
  - apply respond_flag_irrelevant; [assumption | discriminate].
  - intros Hw. apply respond_unwritable. exact Hw.
  - intros Hw. apply (respond_terminal (with_respond_flag v c)); assumption.
Qed.

(** The flag set to the number 0: the string body is still sent. *)
Lemma respond_bypass_only_false_witness :
  (VNum 0 <> VBool false /\ VNull <> VBool false /\ VStr "" <> VBool false)
  /\ @respond sample_statuses
       (with_respond_flag (VNum 0) (sample_context "GET" 200 (VStr "hi")))
     = (fst (@respond sample_statuses
               (with_respond_flag VUndefined
                  (sample_context "GET" 200 (VStr "hi")))),
        with_respond_flag (VNum 0)
          (snd (@respond sample_statuses
                  (with_respond_flag VUndefined
                     (sample_context "GET" 200 (VStr "hi")))))).
Proof.
  split; [split; [discriminate | split; discriminate] |].
  exact (proj1 (proj2 (@respond_bypass_only_false sample_statuses
                         (sample_context "GET" 200 (VStr "hi")) (VNum 0)
                         ltac:(discriminate)))).
Defined.

(** ** The dispatcher *)

Section Dispatcher.
Context `{Statuses} `{ContextOnerror}.

(** One call of the error callback: it is recorded, and the context is what
    [ctx.onerror] makes of it. *)
Lemma onerror_callback_unfold (err : option exn) (w : world) :
  onerror_callback err w =
    (fst (ctx_onerror err (ctx w)),
     {| ctx := snd (ctx_onerror err (ctx w));
        trace := trace w ++ [OnerrorCalled err] |}).
Proof.
  destruct w as [c t].
  cbv beta iota zeta delta
    [onerror_callback lift log modify mbind M_bind mret M_ret ctx trace].
  destruct (ctx_onerror err c) as [[[] | e] c']; reflexivity.
Qed.

(** [handleRequest] spelled out by the outcome of the pipeline and of the
    finalizer. *)
Lemma handleRequest_unfold (fn : M world unit) (w : world) :
  handleRequest fn w =
    match fn (dispatched w) with
    | (Ok _, w1) =>
        match respond (ctx w1) with
        | (Ok _, c2) =>
            (Ok tt, {| ctx := c2; trace := trace w1 ++ [RespondCalled] |})
        | (Throw e, c2) =>
            onerror_callback (Some e)
              {| ctx := c2; trace := trace w1 ++ [RespondCalled] |}
        end
    | (Throw e, w1) => onerror_callback (Some e) w1
    end.
Proof.
  destruct w as [c t].
  cbv beta iota zeta delta
    [handleRequest lift log then_ catch_ onFinished on_res
     modify mbind M_bind mret M_ret ctx trace dispatched handlers_context
     with_res with_listeners with_statusCode res req respond_flag body
     explicitNullBody statusCode statusMessage headers headersSent writable
     writes finished_listeners].
  match goal with
  | |- context [fn ?x] => destruct (fn x) as [[[] | e] [c1 t1]]
  end; [| reflexivity].
  cbv beta iota zeta delta [ctx trace].
  destruct (respond c1) as [[[] | e] c2]; reflexivity.
Qed.

(** The completion signal of the transport, with the one observer the
    dispatcher attaches: the response is over and the error callback is
    called once. *)
Lemma emit_finished_one (err : option exn) (w : world) :
  finished_listeners (res (ctx w)) = [CtxOnerror] ->
  emit_finished err w =
    onerror_callback err {| ctx := finished (ctx w); trace := trace w |}.
Proof.
  intros Hl. destruct w as [c t]. cbn [ctx trace] in *.
  cbv beta iota zeta delta
    [emit_finished lift on_res modify gets mbind M_bind mret M_ret ctx trace].
  rewrite Hl. cbn [foldr].
  fold (finished c).
  destruct (onerror_callback err {| ctx := finished c; trace := t |})
    as [[[] | e] w']; reflexivity.
Qed.

(** A completion signal with no observer attached calls nothing. *)
Lemma emit_finished_none (err : option exn) (w : world) :
  finished_listeners (res (ctx w)) = [] ->
  emit_finished err w
  = (Ok tt, {| ctx := finished (ctx w); trace := trace w |}).
Proof.
  intros Hl. destruct w as [c t]. cbn [ctx trace] in *.
  cbv beta iota zeta delta
    [emit_finished lift on_res modify gets mbind M_bind mret M_ret ctx trace].
  rewrite Hl. reflexivity.
Qed.
End Dispatcher.

(** The sample error callback makes at most one terminal call. *)
Lemma sample_ctx_onerror_writes : @writes_at_most_once sample_ctx_onerror.
Proof.
  intros err c. unfold ctx_onerror, sample_ctx_onerror, ctx_writable.
  destruct err as [e |]; [| split; [reflexivity | left; reflexivity]].
  destruct (headersSent (res c)), (writable (res c)); cbn;
    (split; [first [reflexivity | discriminate] |]);
    first [left; reflexivity | right; eexists; reflexivity].
Qed.

(** Counterexample to C1 as the spec words it.  A pipeline that succeeds
    after setting the body to [{ n: 10n }] has the finalizer called and then,
    because serializing the body throws, the error callback as well: success
    and failure both fire.  A pipeline that fails after the connection was
    reset has the error callback called twice, by the completion observer
    and by the promise chain. *)
Lemma finalizer_throw_reaches_onerror :
  (fst (lift bigint_handler (dispatched (sample_world "GET"))) = Ok tt
   /\ trace (snd (@handleRequest sample_statuses sample_ctx_onerror
                    (lift bigint_handler) (sample_world "GET")))
      = [RespondCalled; OnerrorCalled (Some bigint_error)])
  /\ (fst (@reset_then_fail sample_ctx_onerror
             (dispatched (sample_world "GET")))
      = Throw (Raised (VError "Error" "write after end" None []))
      /\ trace (snd (@handleRequest sample_statuses sample_ctx_onerror
                       (@reset_then_fail sample_ctx_onerror)
                       (sample_world "GET")))
         = [OnerrorCalled (Some connection_reset);
            OnerrorCalled
              (Some (Raised (VError "Error" "write after end" None [])))]).
Proof. vm_compute. repeat split. Qed.

(** C1, amended.  The pipeline runs on a context whose status code is 404 and
    to which the error callback is attached once as completion observer.
    When the pipeline succeeds the finalizer is called exactly once; it makes
    at most one terminal call, and none when the response is no longer
    writable; the promise chain calls the error callback only when the
    finalizer itself throws, then once, after it, and the finalizer has
    written nothing.  When the pipeline fails the finalizer is not called and
    the chain calls the error callback exactly once.  One call of the error
    callback is one call of [ctx.onerror].  When the transport signals
    completion, the one observer makes the response unwritable and calls the
    error callback exactly once, whatever the chain does later.  Provided
    one call of [ctx.onerror] writes at most once, and not at all when the
    response is no longer writable, the response is written at most once
    after the pipeline has settled, and a completion signal writes
    nothing. *)
Theorem handleRequest_chain_outcomes `{Statuses} `{ContextOnerror}
    (fn : M world unit) (w : world) :
  statusCode (res (ctx (dispatched w))) = 404
  /\ finished_listeners (res (ctx (dispatched w)))
     = finished_listeners (res (ctx w)) ++ [CtxOnerror]
  /\ match fn (dispatched w) with
     | (Ok _, w1) =>
         match respond (ctx w1) with
         | (Ok _, c2) =>
             handleRequest fn w =
               (Ok tt, {| ctx := c2; trace := trace w1 ++ [RespondCalled] |})
             /\ (writes (res c2) = writes (res (ctx w1))
                 \/ exists wr, writes (res c2) = writes (res (ctx w1)) ++ [wr])
             /\ (ctx_writable (ctx w1) = false -> c2 = ctx w1)
         | (Throw e, c2) =>
             c2 = ctx w1
             /\ handleRequest fn w =
                  (fst (ctx_onerror (Some e) c2),
                   {| ctx := snd (ctx_onerror (Some e) c2);
                      trace := trace w1
                               ++ [RespondCalled; OnerrorCalled (Some e)] |})
         end
     | (Throw e, w1) =>
         handleRequest fn w =
           (fst (ctx_onerror (Some e) (ctx w1)),
            {| ctx := snd (ctx_onerror (Some e) (ctx w1));
               trace := trace w1 ++ [OnerrorCalled (Some e)] |})
     end
  /\ (forall err w',
        finished_listeners (res (ctx w')) = [CtxOnerror] ->
        emit_finished err w' =
          (fst (ctx_onerror err (finished (ctx w'))),
           {| ctx := snd (ctx_onerror err (finished (ctx w')));
              trace := trace w' ++ [OnerrorCalled err] |})
        /\ ctx_writable (finished (ctx w')) = false)
  /\ (writes_at_most_once ->
      (writes (res (ctx (snd (handleRequest fn w))))
       = writes (res (ctx (snd (fn (dispatched w)))))
       \/ exists wr,
            writes (res (ctx (snd (handleRequest fn w))))
            = writes (res (ctx (snd (fn (dispatched w))))) ++ [wr])
      /\ (forall err w',
            finished_listeners (res (ctx w')) = [CtxOnerror] ->
            writes (res (ctx (snd (emit_finished err w'))))
            = writes (res (ctx w')))).
Proof.
  split; [reflexivity | split; [reflexivity |]].
  split; [| split].
  - rewrite handleRequest_unfold.
    destruct (fn (dispatched w)) as [[[] | e] w1];
      [| apply onerror_callback_unfold].
    pose proof (respond_writes_at_most_once (ctx w1)) as Hw.
    pose proof (respond_unwritable (ctx w1)) as Hu.
    destruct (respond (ctx w1)) as [[[] | e] c2] eqn:Hr.
    + split; [reflexivity |]. split; [exact Hw |].
      intros Hx. specialize (Hu Hx). congruence.
    + apply respond_throws in Hr. destruct Hr as [-> _].
      split; [reflexivity |].
      rewrite onerror_callback_unfold. cbn [ctx trace].
      rewrite <- app_assoc. reflexivity.
  - intros err w' Hl. split; [| reflexivity].
    rewrite (emit_finished_one err w' Hl), onerror_callback_unfold.
    reflexivity.
  - intros Hc. split.
    + rewrite handleRequest_unfold.
      destruct (fn (dispatched w)) as [[[] | e] w1]; cbn [snd].
      * pose proof (respond_writes_at_most_once (ctx w1)) as Hw.
        destruct (respond (ctx w1)) as [[[] | e] c2] eqn:Hr; [exact Hw |].
        apply respond_throws in Hr. destruct Hr as [-> _].
        rewrite onerror_callback_unfold. cbn [snd ctx]. apply Hc.
      * rewrite onerror_callback_unfold. cbn [snd ctx]. apply Hc.
    + intros err w' Hl.
      rewrite (emit_finished_one err w' Hl), onerror_callback_unfold.
      cbn [snd ctx].
      destruct (Hc err (finished (ctx w'))) as [Hn _].
      rewrite Hn by reflexivity. reflexivity.
Qed.

(** The finalizer throws on the body [{ n: 10n }] and the sample error
    callback answers in its place: one terminal call in all. *)
Lemma handleRequest_chain_outcomes_witness :
  @writes_at_most_once sample_ctx_onerror
  /\ (writes (res (ctx (snd (@handleRequest sample_statuses sample_ctx_onerror
                              (lift bigint_handler) (sample_world "GET")))))
      = writes (res (ctx (snd (lift bigint_handler
                                 (dispatched (sample_world "GET"))))))
      \/ exists wr,
           writes (res (ctx (snd (@handleRequest sample_statuses
                                    sample_ctx_onerror
                                    (lift bigint_handler)
                                    (sample_world "GET")))))
           = writes (res (ctx (snd (lift bigint_handler
                                      (dispatched (sample_world "GET"))))))
             ++ [wr]).
Proof.
  split; [exact sample_ctx_onerror_writes |].
  destruct (@handleRequest_chain_outcomes sample_statuses sample_ctx_onerror
              (lift bigint_handler) (sample_world "GET"))
    as (_ & _ & _ & _ & Hw).
  exact (proj1 (Hw sample_ctx_onerror_writes)).
Defined.

(** Counterexample to C2 as the spec words it: a HEAD request through a
    pipeline that sets neither status nor body is answered with status 404,
    no payload and no content-length. *)
Lemma head_default_has_no_body :
  (mret tt : M world unit) (dispatched (sample_world "HEAD"))
  = (Ok tt, dispatched (sample_world "HEAD"))
  /\ ctx_method (ctx (dispatched (sample_world "HEAD"))) = "HEAD"
  /\ statusCode (res (ctx (snd (@handleRequest sample_statuses
                                  sample_ctx_onerror (mret tt)
                                  (sample_world "HEAD"))))) = 404
  /\ writes (res (ctx (snd (@handleRequest sample_statuses
                              sample_ctx_onerror (mret tt)
                              (sample_world "HEAD"))))) = [End NoPayload]
  /\ headers (res (ctx (snd (@handleRequest sample_statuses
                               sample_ctx_onerror (mret tt)
                               (sample_world "HEAD"))))) !! "content-length"
     = None.
Proof. vm_compute. repeat split. Qed.

(** C2, amended: the pipeline runs on a context whose status code is 404.
    When the pipeline succeeds without changing the status code and leaves
    the body absent, and the request is not a HEAD request (bypass not
    requested, connection writable, headers unsent), the response keeps
    status 404, the content type is plain text, the content length is the
    byte length of the payload, and the payload is the string 404 on
    protocol version 2 and later, the status message on an earlier version
    when there is one, and the string 404 on an earlier version when there
    is none. *)
Theorem default_status_not_found `{Statuses} `{ContextOnerror}
    (fn : M world unit) (w w1 : world) :
  fn (dispatched w) = (Ok tt, w1) ->
  statusCode (res (ctx w1)) = statusCode (res (ctx (dispatched w))) ->
  is_nullish (body (ctx w1)) = true ->
  explicitNullBody (ctx w1) = false ->
  respond_flag (ctx w1) <> VBool false ->
  ctx_writable (ctx w1) = true ->
  headersSent (res (ctx w1)) = false ->
  ctx_method (ctx w1) <> "HEAD" ->
  statusCode (res (ctx (dispatched w))) = 404
  /\ exists text c2,
       handleRequest fn w
         = (Ok tt, {| ctx := c2; trace := trace w1 ++ [RespondCalled] |})
       /\ statusCode (res c2) = 404
       /\ writes (res c2) = writes (res (ctx w1)) ++ [End (Text text)]
       /\ headers (res c2) !! "content-type" = Some "text/plain; charset=utf-8"
       /\ headers (res c2) !! "content-length"
          = Some (String_of_number (byteLength text))
       /\ (2 <= httpVersionMajor (req (ctx w1)) -> text = "404")
       /\ (httpVersionMajor (req (ctx w1)) < 2 ->
             forall m, ctx_message (ctx w1) = Some m -> m <> "" -> text = m)
       /\ (httpVersionMajor (req (ctx w1)) < 2 ->
             ctx_message (ctx w1) = None \/ ctx_message (ctx w1) = Some "" ->
             text = "404").
Proof.
  intros Hfn Hst Hb Hx Hf Hw Hs Hm.
  split; [reflexivity |].
  assert (Hcode : ctx_status (ctx w1) = 404) by exact Hst.
  assert (He : statuses_empty (ctx_status (ctx w1)) = false)
    by (rewrite Hcode; reflexivity).
  exists (status_text (ctx w1)). eexists.
  rewrite handleRequest_unfold, Hfn.
  rewrite (respond_absent (ctx w1) Hf Hw He Hm Hb), Hx, Hs.
  split; [reflexivity |].
  split; [exact Hcode |].
  split; [reflexivity |].
  split; [simpl; rewrite lookup_insert_ne by discriminate;
          apply lookup_insert_eq |].
  split; [simpl; apply lookup_insert_eq |].
  unfold status_text. rewrite Hcode.
  split; [| split].
  - intros Hv.
    destruct (Z.leb_spec 2 (httpVersionMajor (req (ctx w1))));
      [reflexivity | lia].
  - intros Hv m Hmsg Hne.
    destruct (Z.leb_spec 2 (httpVersionMajor (req (ctx w1)))); [lia |].
    rewrite Hmsg. apply String.eqb_neq in Hne. rewrite Hne. reflexivity.
  - intros Hv Hmsg.
    destruct (Z.leb_spec 2 (httpVersionMajor (req (ctx w1)))); [lia |].
    destruct Hmsg as [-> | ->]; reflexivity.
Qed.

(** A GET through an empty pipeline over HTTP/1: the payload is the standard
    phrase for 404. *)
Lemma default_status_not_found_witness :
  (ctx_method (ctx (dispatched (sample_world "GET"))) <> "HEAD"
   /\ respond_flag (ctx (dispatched (sample_world "GET"))) <> VBool false)
  /\ exists c2,
       @handleRequest sample_statuses sample_ctx_onerror (mret tt)
         (sample_world "GET")
         = (Ok tt, {| ctx := c2;
                      trace := trace (sample_world "GET") ++ [RespondCalled] |})
       /\ statusCode (res c2) = 404
       /\ writes (res c2) = [End (Text "Not Found")]
       /\ headers (res c2) !! "content-length" = Some "9".
Proof.
  split; [split; discriminate |].
  destruct (@default_status_not_found sample_statuses sample_ctx_onerror
              (mret tt) (sample_world "GET") (dispatched (sample_world "GET")))
    as (_ & text & c2 & Hrun & Hcode & Hwr & _ & Hlen & _ & Hmsg & _);
    first [reflexivity | discriminate | idtac].
  assert (Ht : text = "Not Found").
  { apply Hmsg; [reflexivity | reflexivity | discriminate]. }
  subst text. exists c2.
  split; [exact Hrun |]. split; [exact Hcode |].
  split; [exact Hwr | exact Hlen].
Defined.

(** ** The context factory *)

Lemma get_prop_own (h : gmap loc object) (l : loc) (o : object) (k : string)
    (v : hval) :
  h !! l = Some o -> props o !! k = Some v ->
  get_prop (HRef l) k h = (Ok v, h).
Proof. intros Hl Hk. unfold get_prop. simpl. rewrite Hl, Hk. reflexivity. Qed.

Lemma set_prop_at (h : gmap loc object) (l : loc) (o : object) (k : string)
    (v : hval) :
  h !! l = Some o ->
  set_prop l k v h
  = (Ok tt, <[l := {| proto := proto o; props := <[k := v]> (props o) |}]> h).
Proof. intros Hl. unfold set_prop, modify. rewrite Hl. reflexivity. Qed.

Lemma alloc_eq (o : object) (h : gmap loc object) :
  alloc o h = (Ok (fresh (dom h)), <[fresh (dom h) := o]> h).
Proof. reflexivity. Qed.

Lemma bind_ok {S A B} (m : M S A) (f : A -> M S B) (s s' : S) (a : A) :
  m s = (Ok a, s') -> (m ≫= f) s = f a s'.
Proof. intros E. unfold mbind, M_bind. rewrite E. reflexivity. Qed.

(** Looks an object up in a heap built by successive updates. *)
Ltac look :=
  repeat first [rewrite lookup_insert_eq
               | rewrite lookup_insert_ne by (assumption || congruence)].

(** One step of a computation on the heap: a property assignment on an
    object whose current state [look] finds. *)
Ltac assign :=
  match goal with
  | |- context [(set_prop ?l ?k ?v ≫= _) ?h] =>
      let E := fresh "E" in
      eassert (E : h !! l = Some _) by (look; reflexivity);
      rewrite (bind_ok _ _ _ _ _ (set_prop_at _ _ _ k v E));
      clear E; cbn [proto props]
  end.

(** A property read on an object of the heap. *)
Ltac read Hk :=
  match goal with
  | |- context [(get_prop (HRef ?l) ?k ≫= _) ?hh] =>
      let E := fresh "E" in
      eassert (E : hh !! l = Some _) by (look; eassumption);
      rewrite (bind_ok _ _ _ _ _ (get_prop_own _ _ _ _ _ E Hk));
      clear E
  end.

(** An allocation, with the fact that the new location is unused. *)
Ltac new_loc x Hx :=
  rewrite (bind_ok _ _ _ _ _ (alloc_eq _ _));
  match goal with
  | |- context [fresh (dom ?hh)] =>
      pose proof (is_fresh (dom hh)) as Hx;
      set (x := fresh (dom hh)) in *;
      rewrite ?dom_insert_L, ?not_elem_of_union, ?not_elem_of_singleton in Hx
  end.

Section Factory.
Variables (h : gmap loc object) (app r tc tr ts : loc) (ao ro : object)
          (res0 u : hval).
Hypothesis Happ : h !! app = Some ao.
Hypothesis Hcontext : props ao !! "context" = Some (HRef tc).
Hypothesis Hrequest : props ao !! "request" = Some (HRef tr).
Hypothesis Hresponse : props ao !! "response" = Some (HRef ts).
Hypothesis Hreq : h !! r = Some ro.
Hypothesis Hurl : props ro !! "url" = Some u.

Lemma createContext_result :
  exists c rq rs st h',
    createContext (HRef app) (HRef r) res0 h = (Ok c, h')
    /\ ((c ∉ dom h) /\ (rq ∉ dom h) /\ (rs ∉ dom h) /\ (st ∉ dom h))
    /\ NoDup [c; rq; rs; st]
    /\ (forall l, l ∈ dom h -> h' !! l = h !! l)
    /\ h' !! c =
         Some {| proto := Proto tc;
                 props := <["state" := HRef st]>
                          (<["originalUrl" := u]>
                          (<["res" := res0]>
                          (<["req" := HRef r]>
                          (<["app" := HRef app]>
                          (<["response" := HRef rs]>
                          (<["request" := HRef rq]> ∅)))))) |}
    /\ h' !! rq =
         Some {| proto := Proto tr;
                 props := <["originalUrl" := u]>
                          (<["response" := HRef rs]>
                          (<["ctx" := HRef c]>
                          (<["res" := res0]>
                          (<["req" := HRef r]>
                          (<["app" := HRef app]> ∅))))) |}
    /\ h' !! rs =
         Some {| proto := Proto ts;
                 props := <["request" := HRef rq]>
                          (<["ctx" := HRef c]>
                          (<["res" := res0]>
                          (<["req" := HRef r]>
                          (<["app" := HRef app]> ∅)))) |}
    /\ h' !! st = Some {| proto := ProtoObject; props := ∅ |}.
Proof.
  assert (Ha : app ∈ dom h) by (apply elem_of_dom; eauto).
  assert (Hr : r ∈ dom h) by (apply elem_of_dom; eauto).
  unfold createContext.
  (* the context *)
  read Hcontext.
  cbn [Object_create]. new_loc c Hc.
  assert (Hca : app <> c) by (intros ->; contradiction).
  assert (Hcr : r <> c) by (intros ->; contradiction).
  (* the request facade *)
  read Hrequest.
  cbn [Object_create]. new_loc rq Hrq.
  assert (Hqc : rq <> c) by tauto.
  assert (Hqh : rq ∉ dom h) by tauto.
  assert (Hqa : app <> rq) by (intros ->; contradiction).
  assert (Hqr : r <> rq) by (intros ->; contradiction).
  assign.
  (* the response facade *)
  read Hresponse.
  cbn [Object_create]. new_loc rs Hrs.
  assert (Hsc : rs <> c) by tauto.
  assert (Hsq : rs <> rq) by tauto.
  assert (Hsh : rs ∉ dom h) by tauto.
  assert (Hsa : app <> rs) by (intros ->; contradiction).
  assert (Hsr : r <> rs) by (intros ->; contradiction).
  do 14 assign.
  read Hurl.
  do 2 assign.
  new_loc st Hst.
  assert (Htc : st <> c) by tauto.
  assert (Htq : st <> rq) by tauto.
  assert (Hts : st <> rs) by tauto.
  assert (Hth : st ∉ dom h) by tauto.
  clear Hst Hrs Hrq.
  assign.
  exists c, rq, rs, st. eexists. split; [reflexivity |].
  split; [tauto |].
  split.
  { repeat constructor; rewrite ?elem_of_cons, ?elem_of_nil;
      intuition congruence. }
  split.
  { intros l Hl.
    assert (l <> c) by (intros ->; contradiction).
    assert (l <> rq) by (intros ->; contradiction).
    assert (l <> rs) by (intros ->; contradiction).
    assert (l <> st) by (intros ->; contradiction).
    look. reflexivity. }
  split; [look; reflexivity |].
  split; [look; reflexivity |].
  split; [look; reflexivity |].
  look; reflexivity.
Qed.

(** C9: the factory returns a new context whose context object, request
    facade and response facade are new, distinct objects linked to one
    another, all three holding the same application and transport handles;
    the state map is a new object with no property, and the original URL
    is the [url] the request handle had when the context was built.  No
    object that existed before is changed. *)
Theorem createContext_links :
  exists c rq rs st h',
    createContext (HRef app) (HRef r) res0 h = (Ok c, h')
    /\ ((c ∉ dom h) /\ (rq ∉ dom h) /\ (rs ∉ dom h) /\ (st ∉ dom h))
    /\ NoDup [c; rq; rs; st]
    /\ (forall l, l ∈ dom h -> h' !! l = h !! l)
    /\ (own_prop h' c "request" = Some (HRef rq)
        /\ own_prop h' c "response" = Some (HRef rs))
    /\ (own_prop h' rq "ctx" = Some (HRef c)
        /\ own_prop h' rq "response" = Some (HRef rs))
    /\ (own_prop h' rs "ctx" = Some (HRef c)
        /\ own_prop h' rs "request" = Some (HRef rq))
    /\ (forall l, l = c \/ l = rq \/ l = rs ->
          own_prop h' l "app" = Some (HRef app)
          /\ own_prop h' l "req" = Some (HRef r)
          /\ own_prop h' l "res" = Some res0)
    /\ (own_prop h' c "originalUrl" = Some u
        /\ own_prop h' rq "originalUrl" = Some u)
    /\ (own_prop h' c "state" = Some (HRef st)
        /\ h' !! st = Some {| proto := ProtoObject; props := ∅ |})
    /\ (proto <$> h' !! c = Some (Proto tc)
        /\ proto <$> h' !! rq = Some (Proto tr)
        /\ proto <$> h' !! rs = Some (Proto ts)).
Proof.
  destruct createContext_result
    as (c & rq & rs & st & h' & Hrun & Hfresh & Hnd & Hframe
        & Hc & Hrq & Hrs & Hst).
  exists c, rq, rs, st, h'.
  split; [exact Hrun |]. split; [exact Hfresh |]. split; [exact Hnd |].
  split; [exact Hframe |].
  unfold own_prop. rewrite Hc, Hrq, Hrs, Hst.
  cbn [props proto fmap option_fmap option_map].
  split; [split; reflexivity |].
  split; [split; reflexivity |].
  split; [split; reflexivity |].
  split.
  { intros l [-> | [-> | ->]]; rewrite ?Hc, ?Hrq, ?Hrs; cbn [props];
      (split; [| split]); reflexivity. }
  split; [split; reflexivity |].
  split; [split; reflexivity |].
  split; [reflexivity | split; reflexivity].
Qed.
End Factory.

(** The factory on the sample heap. *)
Lemma createContext_links_witness :
  (sample_heap !! 1%positive
   = Some {| proto := ProtoObject;
             props := {[ "context" := HRef 2%positive;
                         "request" := HRef 3%positive;
                         "response" := HRef 4%positive ]} |})
  /\ exists c rq rs h',
       createContext (HRef 1%positive) (HRef 5%positive) (HRef 6%positive)
         sample_heap = (Ok c, h')
       /\ own_prop h' c "request" = Some (HRef rq)
       /\ own_prop h' rq "response" = Some (HRef rs)
       /\ own_prop h' rs "ctx" = Some (HRef c)
       /\ own_prop h' c "originalUrl" = Some (HPrim (VStr "/users?page=2")).
Proof.
  split; [reflexivity |].
  edestruct (createContext_links sample_heap 1%positive 5%positive 2%positive
               3%positive 4%positive)
    as (c & rq & rs & st & h' & Hrun & _ & _ & _ & (Hc1 & _) & (_ & Hq2)
        & (Hs1 & _) & _ & (Hu & _) & _);
    [reflexivity | reflexivity | reflexivity | reflexivity | reflexivity
    | reflexivity |].
  exists c, rq, rs, h'.
  split; [exact Hrun |]. split; [exact Hc1 |]. split; [exact Hq2 |].
  split; [exact Hs1 | exact Hu].
Defined.


(** ** The default error handler *)












(** * Further properties *)

(** ** The finalizer on every path *)

Section FinalizerProperties.
Context `{Statuses}.

(** X1: the finalizer never touches the request handle, the [respond] flag
    or the status code, and it leaves the body as it was except when it
    clears it under a no-body status. *)
Theorem respond_frame (c : context) :
  req (snd (respond c)) = req c
  /\ respond_flag (snd (respond c)) = respond_flag c
  /\ statusCode (res (snd (respond c))) = statusCode (res c)
  /\ (body (snd (respond c)) = body c
      \/ (statuses_empty (ctx_status c) = true
          /\ body (snd (respond c)) = VNull)).
Proof. apply respond_preserves. Qed.


(** Uses an equation between two logs that extend the same log by one
    call. *)
Ltac same_write :=
  match goal with
  | Hx : ?l = ?l ++ [_] |- _ => apply app_one_not_nil in Hx; contradiction
  | Hx : ?l ++ [_] = ?l ++ [_] |- _ =>
      apply app_inj_tail in Hx; destruct Hx as [_ Hx];
      try discriminate Hx; try (injection Hx as Hx)
  end.

(** X3: once the finalizer has ended the response, running it again on the
    resulting context does nothing. *)
Theorem respond_after_end (c : context) (p : payload) :
  writes (res (snd (respond c))) = writes (res c) ++ [End p] ->
  respond (snd (respond c)) = (Ok tt, snd (respond c)).
Proof.
  intros Hx. apply respond_unwritable. revert Hx.
  respond_rules c; respond_branches c; cbn; intros Hx;
    try reflexivity; same_write.
Qed.

(** X4: for a HEAD request or a no-body status the finalizer sends no
    payload: it either makes no terminal call or ends the response empty. *)
Theorem respond_no_payload (c : context) :
  ctx_method c = "HEAD" \/ statuses_empty (ctx_status c) = true ->
  writes (res (snd (respond c))) = writes (res c)
  \/ writes (res (snd (respond c))) = writes (res c) ++ [End NoPayload].
Proof.
  intros Hc.
  respond_rules c; respond_branches c; cbn;
    try (destruct Hc; congruence);
    first [left; reflexivity | right; reflexivity].
Qed.

(** X5: when the headers are unsent and the finalizer ends the response
    with a text that it produced itself (the body is not a string), the
    content-length header is the byte length of exactly that text. *)
Theorem respond_content_length (c : context) (s : string) :
  headersSent (res c) = false ->
  (forall t, body c <> VStr t) ->
  writes (res (snd (respond c))) = writes (res c) ++ [End (Text s)] ->
  headers (res (snd (respond c))) !! "content-length"
  = Some (String_of_number (byteLength s)).
Proof.
  intros Hs Hb.
  respond_rules c; respond_branches c; cbn; intros Hx;
    try congruence;
    same_write; subst;
    first [apply lookup_insert_eq | exfalso; eapply Hb; eassumption].
Qed.

(** X6: when the headers are already sent the finalizer sets no header; the
    only change it can still make is the removal of content-type and
    transfer-encoding under the explicit-null rule. *)
Theorem respond_headers_once_sent (c : context) :
  headersSent (res c) = true ->
  headers (res (snd (respond c))) = headers (res c)
  \/ (is_nullish (body c) = true /\ explicitNullBody c = true
      /\ headers (res (snd (respond c)))
         = delete "transfer-encoding"
             (delete "content-type" (headers (res c)))).
Proof.
  intros Hs.
  respond_rules c; respond_branches c; cbn;
    try congruence;
    first [left; reflexivity
          | right; split; [reflexivity | split; reflexivity]].
Qed.

(** X7: whatever the finalizer does, every header other than content-type,
    content-length and transfer-encoding keeps its value or its absence. *)
Theorem respond_other_headers (c : context) (k : string) :
  k <> "content-type" -> k <> "content-length" -> k <> "transfer-encoding" ->
  headers (res (snd (respond c))) !! k = headers (res c) !! k.
Proof.
  intros K1 K2 K3.
  respond_rules c; respond_branches c; cbn;
    rewrite ?lookup_insert_ne, ?lookup_delete_ne by congruence;
    reflexivity.
Qed.
End FinalizerProperties.


(** A string body has been sent; the finalizer runs again. *)
Lemma respond_after_end_witness :
  writes (res (snd (@respond sample_statuses
                      (sample_context "GET" 200 (VStr "hi")))))
  = writes (res (sample_context "GET" 200 (VStr "hi"))) ++ [End (Text "hi")]
  /\ @respond sample_statuses
       (snd (@respond sample_statuses (sample_context "GET" 200 (VStr "hi"))))
     = (Ok tt,
        snd (@respond sample_statuses (sample_context "GET" 200 (VStr "hi")))).
Proof.
  split; [reflexivity |].
  exact (@respond_after_end sample_statuses
           (sample_context "GET" 200 (VStr "hi")) (Text "hi") eq_refl).
Defined.

(** A HEAD request whose handler set a string body. *)
Lemma respond_no_payload_witness :
  ctx_method (sample_context "HEAD" 200 (VStr "hi")) = "HEAD"
  /\ (writes (res (snd (@respond sample_statuses
                          (sample_context "HEAD" 200 (VStr "hi")))))
      = writes (res (sample_context "HEAD" 200 (VStr "hi")))
      \/ writes (res (snd (@respond sample_statuses
                             (sample_context "HEAD" 200 (VStr "hi")))))
         = writes (res (sample_context "HEAD" 200 (VStr "hi")))
           ++ [End NoPayload]).
Proof.
  split; [reflexivity |].
  exact (@respond_no_payload sample_statuses
           (sample_context "HEAD" 200 (VStr "hi")) (or_introl eq_refl)).
Defined.

(** An array as body: the content length is that of its serialization. *)
Lemma respond_content_length_witness :
  headersSent (res (sample_context "GET" 200 (VArray [VNum 1; VNum 22])))
  = false
  /\ headers (res (snd (@respond sample_statuses
                          (sample_context "GET" 200
                             (VArray [VNum 1; VNum 22])))))
       !! "content-length" = Some "6".
Proof.
  split; [reflexivity |].
  exact (@respond_content_length sample_statuses
           (sample_context "GET" 200 (VArray [VNum 1; VNum 22])) "[1,22]"
           eq_refl ltac:(discriminate) eq_refl).
Defined.

(** Headers already sent and an object as body: the headers stay. *)
Lemma respond_headers_once_sent_witness :
  headersSent (res (sample_sent_context (VObject [("ok", VBool true)])))
  = true
  /\ (headers (res (snd (@respond sample_statuses
                           (sample_sent_context
                              (VObject [("ok", VBool true)])))))
      = headers (res (sample_sent_context (VObject [("ok", VBool true)])))
      \/ (is_nullish (body (sample_sent_context
                              (VObject [("ok", VBool true)]))) = true
          /\ explicitNullBody (sample_sent_context
                                 (VObject [("ok", VBool true)])) = true
          /\ headers (res (snd (@respond sample_statuses
                                  (sample_sent_context
                                     (VObject [("ok", VBool true)])))))
             = delete "transfer-encoding"
                 (delete "content-type"
                    (headers (res (sample_sent_context
                                     (VObject [("ok", VBool true)]))))))).
Proof.
  split; [reflexivity |].
  exact (@respond_headers_once_sent sample_statuses
           (sample_sent_context (VObject [("ok", VBool true)])) eq_refl).
Defined.

(** A custom header survives the finalization of an absent body. *)
Lemma respond_other_headers_witness :
  "x-request-id" <> "content-type"
  /\ headers (res (snd (@respond sample_statuses
                          (sample_context "GET" 404 VUndefined))))
       !! "x-request-id"
     = headers (res (sample_context "GET" 404 VUndefined)) !! "x-request-id".
Proof.
  split; [discriminate |].
  apply (@respond_other_headers sample_statuses
           (sample_context "GET" 404 VUndefined) "x-request-id");
    discriminate.
Defined.

(** ** The dispatcher and the status code *)

(** X8: the status code the response handle had before dispatch does not
    matter.  When the pipeline resolves and the finalizer returns, the status
    code after dispatch is the one the pipeline left: the finalizer never
    changes it.  When the pipeline rejects, it is the one [ctx.onerror]
    leaves. *)
Theorem handleRequest_status `{Statuses} `{ContextOnerror}
    (fn : M world unit) (w : world) (n : Z) :
  handleRequest fn
    {| ctx := with_res (with_statusCode n (res (ctx w))) (ctx w);
       trace := trace w |}
  = handleRequest fn w
  /\ (forall w1 c2,
        fn (dispatched w) = (Ok tt, w1) -> respond (ctx w1) = (Ok tt, c2) ->
        statusCode (res (ctx (snd (handleRequest fn w))))
        = statusCode (res (ctx w1)))
  /\ (forall e w1,
        fn (dispatched w) = (Throw e, w1) ->
        statusCode (res (ctx (snd (handleRequest fn w))))
        = statusCode (res (snd (ctx_onerror (Some e) (ctx w1))))).
Proof.
  split; [| split].
  - rewrite !handleRequest_unfold. reflexivity.
  - intros w1 c2 Hfn Hr. rewrite handleRequest_unfold, Hfn, Hr. cbn [snd ctx].
    pose proof (respond_preserves (ctx w1)) as (_ & _ & Hs & _).
    rewrite Hr in Hs. exact Hs.
  - intros e w1 Hfn.
    rewrite handleRequest_unfold, Hfn, onerror_callback_unfold. reflexivity.
Qed.

(** ** The error handler of a silent application *)

(** X9: on a silent application the error handler never writes to the error
    stream; it returns for a recognized error and still throws for any other
    value. *)
Theorem onerror_silent (this : Application) (err : value)
    (out : list string) :
  truthy (silent this) = true ->
  snd (onerror this err out) = out
  /\ (isNativeError err = true -> fst (onerror this err out) = Ok tt)
  /\ (isNativeError err = false ->
        exists e, fst (onerror this err out) = Throw e).
Proof.
  intros Hs. unfold onerror, format_non_error.
  destruct (isNativeError err); cbn [negb].
  - rewrite Hs. destruct (_ || _); repeat split; try reflexivity;
      discriminate.
  - destruct (JSON_stringify err); repeat split; try reflexivity;
      try discriminate; intros _; eexists; reflexivity.
Qed.

(** A silent application handed a number instead of an error. *)
Lemma onerror_silent_witness :
  truthy (silent {| silent := VBool true |}) = true
  /\ snd (onerror {| silent := VBool true |} (VNum 7) ["earlier"])
     = ["earlier"]
  /\ exists e,
       fst (onerror {| silent := VBool true |} (VNum 7) ["earlier"])
       = Throw e.
Proof.
  split; [reflexivity |].
  destruct (onerror_silent {| silent := VBool true |} (VNum 7) ["earlier"]
              eq_refl) as (Hout & _ & Hthrow).
  split; [exact Hout | exact (Hthrow eq_refl)].
Defined.

(** ** Middleware registration *)

Section Registration.
Context {B : Type} `{Convert B}.

Lemma use_function (f : function_ B) (r : registry B) :
  use (Fn f) r
  = (Ok tt,
     {| middleware := middleware r ++ [stored f];
        notices := notices r ++ notices_for f |}).
Proof.
  unfold use, notices_for, stored, notify, push, modify, mbind, M_bind, mret,
    M_ret.
  destruct (isGeneratorFunction f); cbn [middleware notices].
  - rewrite <- app_assoc. reflexivity.
  - reflexivity.
Qed.

(** X10: registering a list of functions appends them to the middleware in
    the order given, each generator function replaced by its conversion, and
    gives one debug notice per function preceded by a deprecation notice for
    each generator function. *)
Theorem use_chain_order (fs : list (function_ B)) (r : registry B) :
  use_chain (map Fn fs) r
  = (Ok tt,
     {| middleware := middleware r ++ map stored fs;
        notices := notices r ++ concat (map notices_for fs) |}).
Proof.
  revert r. induction fs as [| f fs IH]; intros r.
  - cbn. rewrite !app_nil_r. destruct r; reflexivity.
  - cbn [map use_chain]. unfold mbind, M_bind.
    rewrite use_function, IH. cbn [middleware notices map concat].
    rewrite <- !app_assoc. reflexivity.
Qed.

(** X11: a value that is no function stops a chain of registrations with a
    TypeError: the functions before it stay registered, in order, and nothing
    after it is registered. *)
Theorem use_chain_aborts (fs : list (function_ B)) (v : value)
    (rest : list (argument B)) (r : registry B) :
  use_chain (map Fn fs ++ NoFunction v :: rest) r
  = (Throw (TypeError "middleware must be a function!"),
     {| middleware := middleware r ++ map stored fs;
        notices := notices r ++ concat (map notices_for fs) |}).
Proof.
  revert r. induction fs as [| f fs IH]; intros r.
  - cbn. rewrite !app_nil_r. destruct r; reflexivity.
  - cbn [map app use_chain]. unfold mbind, M_bind.
    rewrite use_function, IH. cbn [middleware notices map concat].
    rewrite <- !app_assoc. reflexivity.
Qed.
End Registration.

(** ** Contexts, templates and requests *)

Lemma bind_throw {S A B} (m : M S A) (f : A -> M S B) (s s' : S) (e : exn) :
  m s = (Throw e, s') -> (m ≫= f) s = (Throw e, s').
Proof. intros E. unfold mbind, M_bind. rewrite E. reflexivity. Qed.

(** A property an object lacks is read from its prototype. *)
Lemma get_prop_inherited (h : gmap loc object) (l t : loc) (o to : object)
    (k : string) (v : hval) :
  h !! l = Some o -> props o !! k = None -> proto o = Proto t ->
  h !! t = Some to -> props to !! k = Some v ->
  get_prop (HRef l) k h = (Ok v, h).
Proof.
  intros Hl Hk Hp Ht Hv. unfold get_prop. cbn [lookup_chain].
  rewrite Hl, Hk, Hp.
  destruct (size h) eqn:Es.
  - apply map_size_empty_inv in Es. subst h. rewrite lookup_empty in Hl.
    discriminate.
  - cbn [lookup_chain]. rewrite Ht, Hv. reflexivity.
Qed.

Section Layering.
Variables (h : gmap loc object) (app r tc tr ts : loc) (ao ro to : object)
          (res0 u v : hval) (k : string).
Hypothesis Happ : h !! app = Some ao.
Hypothesis Hcontext : props ao !! "context" = Some (HRef tc).
Hypothesis Hrequest : props ao !! "request" = Some (HRef tr).
Hypothesis Hresponse : props ao !! "response" = Some (HRef ts).
Hypothesis Hreq : h !! r = Some ro.
Hypothesis Hurl : props ro !! "url" = Some u.
Hypothesis Htemplate : h !! tc = Some to.
Hypothesis Hhelper : props to !! k = Some v.
Hypothesis Hfree : k ∉ context_links.

(** X12: a property of the application's context template that the factory
    does not set itself is read through every new context; assigning it on
    the context shadows it there and leaves the template as it was. *)
Theorem createContext_inherits :
  exists c h',
    createContext (HRef app) (HRef r) res0 h = (Ok c, h')
    /\ get_prop (HRef c) k h' = (Ok v, h')
    /\ forall v', exists h'',
         set_prop c k v' h' = (Ok tt, h'')
         /\ get_prop (HRef c) k h'' = (Ok v', h'')
         /\ get_prop (HRef tc) k h'' = (Ok v, h'').
Proof.
  destruct (createContext_result h app r tc tr ts ao ro res0 u
              Happ Hcontext Hrequest Hresponse Hreq Hurl)
    as (c & rq & rs & st & h' & Hrun & (Hc & _) & _ & Hframe & Hoc & _).
  assert (Htd : tc ∈ dom h) by (apply elem_of_dom; eauto).
  assert (Hne : c <> tc) by (intros ->; contradiction).
  assert (Ht' : h' !! tc = Some to) by (rewrite Hframe; assumption).
  unfold context_links in Hfree.
  rewrite !not_elem_of_cons in Hfree.
  destruct Hfree as (K1 & K2 & K3 & K4 & K5 & K6 & K7 & _).
  exists c, h'. split; [exact Hrun |]. split.
  - eapply get_prop_inherited; [exact Hoc | | reflexivity | exact Ht'
                               | exact Hhelper].
    cbn [props]. rewrite !lookup_insert_ne by congruence. apply lookup_empty.
  - intros v'. eexists. split; [apply (set_prop_at _ _ _ _ _ Hoc) |]. split.
    + eapply get_prop_own; [apply lookup_insert_eq |].
      cbn [props]. apply lookup_insert_eq.
    + eapply get_prop_own; [| exact Hhelper].
      rewrite lookup_insert_ne by exact Hne. exact Ht'.
Qed.
End Layering.

(** The helper [render] of the context template, read and then overwritten
    on one request's context. *)
Lemma createContext_inherits_witness :
  sample_heap_with_helper !! 2%positive
  = Some {| proto := ProtoObject;
            props := {[ "render" := HPrim (VStr "helper") ]} |}
  /\ exists c h',
       createContext (HRef 1%positive) (HRef 5%positive) (HRef 6%positive)
         sample_heap_with_helper = (Ok c, h')
       /\ get_prop (HRef c) "render" h' = (Ok (HPrim (VStr "helper")), h').
Proof.
  split; [reflexivity |].
  edestruct (createContext_inherits sample_heap_with_helper 1%positive
               5%positive 2%positive 3%positive 4%positive)
    with (k := "render") (res0 := HRef 6%positive)
    as (c & h' & Hrun & Hget & _);
    [reflexivity | reflexivity | reflexivity | reflexivity | reflexivity
    | reflexivity | reflexivity | reflexivity | |].
  - unfold context_links. rewrite !not_elem_of_cons.
    repeat split; try discriminate. apply not_elem_of_nil.
  - exists c, h'. split; [exact Hrun | exact Hget].
Defined.

Section TwoRequests.
Variables (h : gmap loc object) (app r1 r2 tc tr ts : loc)
          (ao ro1 ro2 : object) (res1 res2 u1 u2 : hval).
Hypothesis Happ : h !! app = Some ao.
Hypothesis Hcontext : props ao !! "context" = Some (HRef tc).
Hypothesis Hrequest : props ao !! "request" = Some (HRef tr).
Hypothesis Hresponse : props ao !! "response" = Some (HRef ts).
Hypothesis Hreq1 : h !! r1 = Some ro1.
Hypothesis Hurl1 : props ro1 !! "url" = Some u1.
Hypothesis Hreq2 : h !! r2 = Some ro2.
Hypothesis Hurl2 : props ro2 !! "url" = Some u2.

(** X13: two requests get eight objects that are all distinct, and building
    the second context changes nothing of the first, which keeps its facades,
    its state and its original URL. *)
Theorem createContext_twice :
  exists c1 rq1 rs1 st1 h1 c2 rq2 rs2 st2 h2,
    createContext (HRef app) (HRef r1) res1 h = (Ok c1, h1)
    /\ createContext (HRef app) (HRef r2) res2 h1 = (Ok c2, h2)
    /\ NoDup [c1; rq1; rs1; st1; c2; rq2; rs2; st2]
    /\ (forall l, l ∈ dom h1 -> h2 !! l = h1 !! l)
    /\ (own_prop h2 c1 "request" = Some (HRef rq1)
        /\ own_prop h2 c1 "response" = Some (HRef rs1)
        /\ own_prop h2 c1 "state" = Some (HRef st1)
        /\ own_prop h2 c1 "originalUrl" = Some u1)
    /\ (own_prop h2 c2 "request" = Some (HRef rq2)
        /\ own_prop h2 c2 "response" = Some (HRef rs2)
        /\ own_prop h2 c2 "state" = Some (HRef st2)
        /\ own_prop h2 c2 "originalUrl" = Some u2).
Proof.
  destruct (createContext_result h app r1 tc tr ts ao ro1 res1 u1
              Happ Hcontext Hrequest Hresponse Hreq1 Hurl1)
    as (c1 & rq1 & rs1 & st1 & h1 & Hrun1 & _ & Hnd1 & Hframe1
        & Hc1 & Hq1 & Hs1 & Ht1).
  assert (Happ1 : h1 !! app = Some ao)
    by (rewrite Hframe1; [assumption | apply elem_of_dom; eauto]).
  assert (Hreq2' : h1 !! r2 = Some ro2)
    by (rewrite Hframe1; [assumption | apply elem_of_dom; eauto]).
  destruct (createContext_result h1 app r2 tc tr ts ao ro2 res2 u2
              Happ1 Hcontext Hrequest Hresponse Hreq2' Hurl2)
    as (c2 & rq2 & rs2 & st2 & h2 & Hrun2 & (F1 & F2 & F3 & F4) & Hnd2
        & Hframe2 & Hc2 & _).
  assert (D1 : c1 ∈ dom h1) by (apply elem_of_dom; eauto).
  assert (D2 : rq1 ∈ dom h1) by (apply elem_of_dom; eauto).
  assert (D3 : rs1 ∈ dom h1) by (apply elem_of_dom; eauto).
  assert (D4 : st1 ∈ dom h1) by (apply elem_of_dom; eauto).
  exists c1, rq1, rs1, st1, h1, c2, rq2, rs2, st2, h2.
  split; [exact Hrun1 |]. split; [exact Hrun2 |].
  split.
  { change [c1; rq1; rs1; st1; c2; rq2; rs2; st2]
      with ([c1; rq1; rs1; st1] ++ [c2; rq2; rs2; st2]).
    apply NoDup_app. split; [exact Hnd1 |]. split; [| exact Hnd2].
    intros x Hx Hy.
    assert (Hd : x ∈ dom h1).
    { rewrite !elem_of_cons, elem_of_nil in Hx.
      destruct Hx as [-> | [-> | [-> | [-> | []]]]]; assumption. }
    rewrite !elem_of_cons, elem_of_nil in Hy.
    destruct Hy as [-> | [-> | [-> | [-> | []]]]]; contradiction. }
  split; [exact Hframe2 |].
  split.
  - unfold own_prop. rewrite (Hframe2 c1 D1), Hc1. cbn [props].
    repeat split; reflexivity.
  - unfold own_prop. rewrite Hc2. cbn [props]. repeat split; reflexivity.
Qed.
End TwoRequests.

(** Two requests on the sample heap. *)
Lemma createContext_twice_witness :
  sample_heap !! 5%positive
  = Some {| proto := ProtoObject;
            props := {[ "url" := HPrim (VStr "/users?page=2") ]} |}
  /\ exists c1 h1 c2 h2,
       createContext (HRef 1%positive) (HRef 5%positive) (HRef 6%positive)
         sample_heap = (Ok c1, h1)
       /\ createContext (HRef 1%positive) (HRef 5%positive) (HRef 6%positive)
            h1 = (Ok c2, h2)
       /\ c1 <> c2
       /\ own_prop h2 c1 "originalUrl" = Some (HPrim (VStr "/users?page=2")).
Proof.
  split; [reflexivity |].
  edestruct (createContext_twice sample_heap 1%positive 5%positive 5%positive
               2%positive 3%positive 4%positive)
    with (res1 := HRef 6%positive) (res2 := HRef 6%positive)
    as (c1 & rq1 & rs1 & st1 & h1 & c2 & rq2 & rs2 & st2 & h2
        & Hrun1 & Hrun2 & Hnd & _ & (_ & _ & _ & Hurl) & _);
    [reflexivity | reflexivity | reflexivity | reflexivity | reflexivity
    | reflexivity | reflexivity | reflexivity |].
  exists c1, h1, c2, h2.
  split; [exact Hrun1 |]. split; [exact Hrun2 |]. split; [| exact Hurl].
  intros ->. apply NoDup_cons in Hnd. destruct Hnd as [Hin _].
  apply Hin. rewrite !elem_of_cons. tauto.
Defined.

(** X14: when the [context] property of the application is a primitive
    value other than null (undefined, a boolean, a number, a BigInt or a
    string), the factory throws the TypeError of [Object.create], which names
    the value, before allocating anything. *)
Theorem createContext_bad_template (h : gmap loc object) (app : loc)
    (ao : object) (p : value) (req0 res0 : hval) :
  h !! app = Some ao ->
  props ao !! "context" = Some (HPrim p) ->
  is_primitive p = true ->
  p <> VNull ->
  createContext (HRef app) req0 res0 h
  = (Throw (TypeError ("Object prototype may only be an Object or null: "
                       +:+ String_of_primitive p)), h).
Proof.
  intros Happ Hcontext Hprim Hp. unfold createContext.
  rewrite (bind_ok _ _ _ _ _ (get_prop_own _ _ _ _ _ Happ Hcontext)).
  apply bind_throw.
  destruct p; try discriminate Hprim; try reflexivity. contradiction.
Qed.

(** An application whose [context] property was overwritten with a
    number. *)
Lemma createContext_bad_template_witness :
  (<[1%positive := {| proto := ProtoObject;
                      props := {[ "context" := HPrim (VNum 0) ]} |}]>
     sample_heap) !! 1%positive
  = Some {| proto := ProtoObject;
            props := {[ "context" := HPrim (VNum 0) ]} |}
  /\ createContext (HRef 1%positive) (HRef 5%positive) (HRef 6%positive)
       (<[1%positive := {| proto := ProtoObject;
                           props := {[ "context" := HPrim (VNum 0) ]} |}]>
          sample_heap)
     = (Throw (TypeError
                 "Object prototype may only be an Object or null: 0"),
        <[1%positive := {| proto := ProtoObject;
                           props := {[ "context" := HPrim (VNum 0) ]} |}]>
          sample_heap).
Proof.
  split; [reflexivity |].
  apply (createContext_bad_template _ 1%positive
           {| proto := ProtoObject;
              props := {[ "context" := HPrim (VNum 0) ]} |} (VNum 0));
    [reflexivity | reflexivity | reflexivity | discriminate].
Defined.

(** X15: called without a request handle the factory throws the TypeError of
    reading [url] of undefined, and no object that existed before is
    changed. *)
Theorem createContext_without_request (h : gmap loc object)
    (app tc tr ts : loc) (ao : object) (res0 : hval) :
  h !! app = Some ao ->
  props ao !! "context" = Some (HRef tc) ->
  props ao !! "request" = Some (HRef tr) ->
  props ao !! "response" = Some (HRef ts) ->
  exists h',
    createContext (HRef app) (HPrim VUndefined) res0 h
    = (Throw (TypeError
                "Cannot read properties of undefined (reading 'url')"), h')
    /\ (forall l, l ∈ dom h -> h' !! l = h !! l).
Proof.
  intros Happ Hcontext Hrequest Hresponse.
  assert (Ha : app ∈ dom h) by (apply elem_of_dom; eauto).
  unfold createContext.
  read Hcontext. cbn [Object_create]. new_loc c Hc.
  assert (Hca : app <> c) by (intros ->; contradiction).
  read Hrequest. cbn [Object_create]. new_loc rq Hrq.
  assert (Hqc : rq <> c) by tauto.
  assert (Hqh : rq ∉ dom h) by tauto.
  assert (Hqa : app <> rq) by (intros ->; contradiction).
  assign.
  read Hresponse. cbn [Object_create]. new_loc rs Hrs.
  assert (Hsc : rs <> c) by tauto.
  assert (Hsq : rs <> rq) by tauto.
  assert (Hsh : rs ∉ dom h) by tauto.
  assert (Hsa : app <> rs) by (intros ->; contradiction).
  do 14 assign.
  eexists. split; [apply bind_throw; reflexivity |].
  intros l Hl.
  assert (l <> c) by (intros ->; contradiction).
  assert (l <> rq) by (intros ->; contradiction).
  assert (l <> rs) by (intros ->; contradiction).
  look. reflexivity.
Qed.

(** The factory called without a request handle on the sample heap. *)
Lemma createContext_without_request_witness :
  sample_heap !! 1%positive
  = Some {| proto := ProtoObject;
            props := {[ "context" := HRef 2%positive;
                        "request" := HRef 3%positive;
                        "response" := HRef 4%positive ]} |}
  /\ exists h',
       createContext (HRef 1%positive) (HPrim VUndefined) (HRef 6%positive)
         sample_heap
       = (Throw (TypeError
                   "Cannot read properties of undefined (reading 'url')"), h')
       /\ (forall l, l ∈ dom sample_heap -> h' !! l = sample_heap !! l).
Proof.
  split; [reflexivity |].
  eapply (createContext_without_request sample_heap 1%positive 2%positive
            3%positive 4%positive);
    reflexivity.
Defined.

(** ** Construction of an application *)

Lemma or_else_not_nullish (x d : value) :
  is_nullish d = false -> is_nullish (or_else x d) = false.
Proof.
  intros Hd. unfold or_else. destruct (truthy x) eqn:Hx; [| exact Hd].
  destruct x; try reflexivity; discriminate.
Qed.

Lemma or_else_truthy (x d : value) :
  truthy d = true -> truthy (or_else x d) = true.
Proof.
  intros Hd. unfold or_else. destruct (truthy x) eqn:Hx; assumption.
Qed.

(** A property neither an object nor its prototype has is read from the
    prototype of the prototype. *)
Lemma get_prop_inherited_twice (h : gmap loc object) (l t m : loc)
    (o to mo : object) (k : string) (v : hval) :
  l <> t ->
  h !! l = Some o -> props o !! k = None -> proto o = Proto t ->
  h !! t = Some to -> props to !! k = None -> proto to = Proto m ->
  h !! m = Some mo -> props mo !! k = Some v ->
  get_prop (HRef l) k h = (Ok v, h).
Proof.
  intros Hne Hl Hk Hp Ht Hkt Hpt Hm Hv. unfold get_prop.
  assert (Hsize : exists n, size h = S (S n)).
  { pose proof (map_size_delete_Some l h (ex_intro _ o Hl)) as Hd.
    assert (Ht' : delete l h !! t = Some to)
      by (rewrite lookup_delete_ne by exact Hne; exact Ht).
    destruct (size (delete l h)) as [| n] eqn:Es.
    - apply map_size_empty_inv in Es. rewrite Es, lookup_empty in Ht'.
      discriminate.
    - exists n. destruct (size h) as [| n']; [discriminate |].
      cbn in Hd. congruence. }
  destruct Hsize as [n ->].
  cbn [lookup_chain]. rewrite Hl, Hk, Hp, Ht, Hkt, Hpt, Hm, Hv. reflexivity.
Qed.

Section Construction.
Variables (rt : runtime) (options : value) (h : gmap loc object)
          (mc mr ms : loc).
Hypothesis Hmc : context_module rt = HRef mc.
Hypothesis Hmr : request_module rt = HRef mr.
Hypothesis Hms : response_module rt = HRef ms.

Let opts : value := or_else options (VObject []).

Lemma constructor_result :
  exists a tc tr ts h' P,
    constructor rt options h = (Ok a, h')
    /\ ((a ∉ dom h) /\ (tc ∉ dom h) /\ (tr ∉ dom h) /\ (ts ∉ dom h))
    /\ NoDup [a; tc; tr; ts]
    /\ (forall l, l ∈ dom h -> h' !! l = h !! l)
    /\ h' !! a = Some {| proto := Application_prototype rt; props := P |}
    /\ h' !! tc = Some {| proto := Proto mc; props := ∅ |}
    /\ h' !! tr = Some {| proto := Proto mr; props := ∅ |}
    /\ h' !! ts = Some {| proto := Proto ms; props := ∅ |}
    /\ (P !! "proxy"
        = Some (HPrim (or_else (field "proxy" opts) (VBool false)))
        /\ P !! "subdomainOffset"
           = Some (HPrim (or_else (field "subdomainOffset" opts) (VNum 2)))
        /\ P !! "proxyIpHeader"
           = Some (HPrim (or_else (field "proxyIpHeader" opts)
                            (VStr "X-Forwarded-For")))
        /\ P !! "maxIpsCount"
           = Some (HPrim (or_else (field "maxIpsCount" opts) (VNum 0)))
        /\ P !! "env"
           = Some (HPrim (or_else (field "env" opts)
                            (or_else (NODE_ENV rt) (VStr "development")))))
    /\ P !! "keys"
       = (if truthy (field "keys" opts)
          then Some (HPrim (field "keys" opts)) else None)
    /\ P !! "middleware" = Some (HPrim (VArray []))
    /\ (P !! "context" = Some (HRef tc)
        /\ P !! "request" = Some (HRef tr)
        /\ P !! "response" = Some (HRef ts)).
Proof.
  unfold constructor.
  new_loc a Ha. cbv beta zeta. fold opts.
  do 5 assign.
  destruct (truthy (field "keys" opts)) eqn:Hk;
    [assign | rewrite (bind_ok (mret tt) _ _ _ tt eq_refl)];
    assign;
    rewrite Hmc; cbn [Object_create]; new_loc t1 Ht1;
    assert (Hca : t1 <> a) by tauto;
    assert (Hch : t1 ∉ dom h) by tauto;
    assign;
    rewrite Hmr; cbn [Object_create]; new_loc t2 Ht2;
    assert (Hra : t2 <> a) by tauto;
    assert (Hrc : t2 <> t1) by tauto;
    assert (Hrh : t2 ∉ dom h) by tauto;
    assign;
    rewrite Hms; cbn [Object_create]; new_loc t3 Ht3;
    assert (Hsa : t3 <> a) by tauto;
    assert (Hsc : t3 <> t1) by tauto;
    assert (Hsr : t3 <> t2) by tauto;
    assert (Hsh : t3 ∉ dom h) by tauto;
    assign;
    exists a, t1, t2, t3; do 2 eexists;
    (split; [reflexivity |]);
    (split; [tauto |]);
    (split;
     [repeat constructor; rewrite ?elem_of_cons, ?elem_of_nil;
      intuition congruence |]);
    (split;
     [intros l Hl;
      assert (l <> a) by (intros ->; contradiction);
      assert (l <> t1) by (intros ->; contradiction);
      assert (l <> t2) by (intros ->; contradiction);
      assert (l <> t3) by (intros ->; contradiction);
      look; reflexivity |]);
    (split; [look; reflexivity |]);
    (split; [look; reflexivity |]);
    (split; [look; reflexivity |]);
    (split; [look; reflexivity |]);
    (split; [repeat split; reflexivity |]);
    (split; [reflexivity |]);
    (split; [reflexivity |]);
    repeat split; reflexivity.
Qed.

(** X16: whatever is passed as options, each of the five settings is the
    option when the option is truthy and the default otherwise, so a falsy
    option cannot be configured; [env] is never falsy, [keys] exists exactly
    when the option is truthy, and the middleware starts empty.  For an
    array or a Buffer passed as options, [keys] is the method of that name
    they inherit. *)
Theorem constructor_settings :
  exists a h',
    constructor rt options h = (Ok a, h')
    /\ (a ∉ dom h)
    /\ (forall l, l ∈ dom h -> h' !! l = h !! l)
    /\ (forall k d, (k, d) ∈ defaults rt ->
          own_prop h' a k
          = Some (HPrim (if truthy (field k opts) then field k opts else d)))
    /\ (exists e, own_prop h' a "env" = Some (HPrim e) /\ truthy e = true)
    /\ own_prop h' a "keys"
       = (if truthy (field "keys" opts)
          then Some (HPrim (field "keys" opts)) else None)
    /\ own_prop h' a "middleware" = Some (HPrim (VArray []))
    /\ (forall items, options = VArray items ->
          own_prop h' a "keys" = Some (HPrim (VBuiltin Array_prototype_keys)))
    /\ (forall bytes, options = VBuffer bytes ->
          own_prop h' a "keys"
          = Some (HPrim (VBuiltin TypedArray_prototype_keys))).
Proof.
  destruct constructor_result
    as (a & t1 & t2 & t3 & h' & P & Hrun & (Ha & _) & _ & Hframe & Hoa & _ & _
        & _ & (S1 & S2 & S3 & S4 & S5) & Hkeys & Hmw & _).
  exists a, h'. split; [exact Hrun |]. split; [exact Ha |].
  split; [exact Hframe |].
  unfold own_prop. rewrite Hoa. cbn [props].
  split.
  { intros k d Hin. unfold defaults in Hin.
    rewrite !elem_of_cons, elem_of_nil in Hin.
    destruct Hin as [E | [E | [E | [E | [E | []]]]]];
      injection E as -> ->; assumption. }
  split.
  { eexists. split; [exact S5 |].
    apply or_else_truthy, or_else_truthy. reflexivity. }
  split; [assumption |]. split; [assumption |].
  split; intros x Hx; rewrite Hkeys; unfold opts; rewrite Hx; reflexivity.
Qed.
End Construction.

(** An application built with a zero subdomain offset and an environment
    name. *)
Lemma constructor_settings_witness :
  context_module sample_runtime = HRef 1%positive
  /\ exists a h',
       constructor sample_runtime
         (VObject [("subdomainOffset", VNum 0); ("env", VStr "test")])
         sample_modules = (Ok a, h')
       /\ own_prop h' a "subdomainOffset" = Some (HPrim (VNum 2))
       /\ own_prop h' a "env" = Some (HPrim (VStr "test")).
Proof.
  split; [reflexivity |].
  destruct (constructor_settings sample_runtime
              (VObject [("subdomainOffset", VNum 0); ("env", VStr "test")])
              sample_modules 1%positive 2%positive 3%positive
              eq_refl eq_refl eq_refl)
    as (a & h' & Hrun & _ & _ & Hset & _).
  exists a, h'. split; [exact Hrun |]. split.
  - apply (Hset "subdomainOffset" (VNum 2)).
    unfold defaults. rewrite !elem_of_cons. tauto.
  - apply (Hset "env" (or_else (NODE_ENV sample_runtime) (VStr "development"))).
    unfold defaults. rewrite !elem_of_cons. tauto.
Defined.


Section ConstructedApplication.
Variables (rt : runtime) (options : value) (h : gmap loc object)
          (mc mr ms r : loc) (mo ro : object) (res0 u v : hval) (k : string).
Hypothesis Hmc : context_module rt = HRef mc.
Hypothesis Hmr : request_module rt = HRef mr.
Hypothesis Hms : response_module rt = HRef ms.
Hypothesis Hreq : h !! r = Some ro.
Hypothesis Hurl : props ro !! "url" = Some u.
Hypothesis Hmodule : h !! mc = Some mo.
Hypothesis Hmethod : props mo !! k = Some v.
Hypothesis Hfree : k ∉ context_links.

(** X17: an application built by the constructor can build a context for any
    request handle with a [url], and a property of the module-level context
    object is read through that context, two prototypes up. *)
Theorem constructor_then_createContext :
  exists a h1 c h2,
    constructor rt options h = (Ok a, h1)
    /\ createContext (HRef a) (HRef r) res0 h1 = (Ok c, h2)
    /\ own_prop h2 c "app" = Some (HRef a)
    /\ own_prop h2 c "originalUrl" = Some u
    /\ get_prop (HRef c) k h2 = (Ok v, h2).
Proof.
  destruct (constructor_result rt options h mc mr ms Hmc Hmr Hms)
    as (a & t1 & t2 & t3 & h1 & P & Hrun & _ & _ & Hframe & Hoa & Ht1 & _
        & _ & _ & _ & _ & (L1 & L2 & L3)).
  assert (Hr1 : h1 !! r = Some ro)
    by (rewrite Hframe; [assumption | apply elem_of_dom; eauto]).
  assert (Hm1 : h1 !! mc = Some mo)
    by (rewrite Hframe; [assumption | apply elem_of_dom; eauto]).
  destruct (createContext_result h1 a r t1 t2 t3 _ ro res0 u
              Hoa L1 L2 L3 Hr1 Hurl)
    as (c & rq & rs & st & h2 & Hrun2 & (Hc & _) & _ & Hframe2 & Hoc & _).
  assert (Hne : c <> t1)
    by (intros ->; apply Hc; apply elem_of_dom; eauto).
  exists a, h1, c, h2.
  split; [exact Hrun |]. split; [exact Hrun2 |].
  unfold own_prop. rewrite Hoc. cbn [props].
  split; [reflexivity |]. split; [reflexivity |].
  unfold context_links in Hfree. rewrite !not_elem_of_cons in Hfree.
  destruct Hfree as (K1 & K2 & K3 & K4 & K5 & K6 & K7 & _).
  apply (get_prop_inherited_twice h2 c t1 mc _
           {| proto := Proto mc; props := ∅ |} mo k v Hne Hoc).
  - cbn [props]. rewrite !lookup_insert_ne by congruence. apply lookup_empty.
  - reflexivity.
  - rewrite Hframe2; [exact Ht1 | apply elem_of_dom; eauto].
  - apply lookup_empty.
  - reflexivity.
  - rewrite Hframe2; [exact Hm1 | apply elem_of_dom; eauto].
  - exact Hmethod.
Qed.
End ConstructedApplication.

(** An application built on the sample modules, then one request: the
    [inspect] property of the module-level context is read on the request's
    context. *)
Lemma constructor_then_createContext_witness :
  sample_modules !! 1%positive
  = Some {| proto := ProtoObject;
            props := {[ "inspect" := HPrim (VStr "method") ]} |}
  /\ exists a h1 c h2,
       constructor sample_runtime VUndefined sample_modules = (Ok a, h1)
       /\ createContext (HRef a) (HRef 4%positive) (HRef 5%positive) h1
          = (Ok c, h2)
       /\ own_prop h2 c "app" = Some (HRef a)
       /\ own_prop h2 c "originalUrl" = Some (HPrim (VStr "/"))
       /\ get_prop (HRef c) "inspect" h2 = (Ok (HPrim (VStr "method")), h2).
Proof.
  split; [reflexivity |].
  eapply (constructor_then_createContext sample_runtime VUndefined
            sample_modules 1%positive 2%positive 3%positive 4%positive);
    try reflexivity.
  unfold context_links. rewrite !not_elem_of_cons.
  repeat split; try discriminate. apply not_elem_of_nil.
Defined.

Section TwoApplications.
Variables (rt : runtime) (options1 options2 : value) (h : gmap loc object)
          (mc mr ms : loc).
Hypothesis Hmc : context_module rt = HRef mc.
Hypothesis Hmr : request_module rt = HRef mr.
Hypothesis Hms : response_module rt = HRef ms.

(** X18: two applications get templates of their own: the two application
    objects and their six templates are all distinct, both context templates
    inherit from the module-level context object, and building the second
    application changes nothing of the first. *)
Theorem constructor_twice :
  exists a1 c1 r1 s1 h1 a2 c2 r2 s2 h2,
    constructor rt options1 h = (Ok a1, h1)
    /\ constructor rt options2 h1 = (Ok a2, h2)
    /\ NoDup [a1; c1; r1; s1; a2; c2; r2; s2]
    /\ (forall l, l ∈ dom h1 -> h2 !! l = h1 !! l)
    /\ (own_prop h2 a1 "context" = Some (HRef c1)
        /\ own_prop h2 a1 "request" = Some (HRef r1)
        /\ own_prop h2 a1 "response" = Some (HRef s1))
    /\ (own_prop h2 a2 "context" = Some (HRef c2)
        /\ own_prop h2 a2 "request" = Some (HRef r2)
        /\ own_prop h2 a2 "response" = Some (HRef s2))
    /\ (proto <$> h2 !! c1 = Some (Proto mc)
        /\ proto <$> h2 !! c2 = Some (Proto mc)).
Proof.
  destruct (constructor_result rt options1 h mc mr ms Hmc Hmr Hms)
    as (a1 & c1 & r1 & s1 & h1 & P1 & Hrun1 & _ & Hnd1 & _ & Ha1 & Hc1 & Hr1
        & Hs1 & _ & _ & _ & (L1 & L2 & L3)).
  destruct (constructor_result rt options2 h1 mc mr ms Hmc Hmr Hms)
    as (a2 & c2 & r2 & s2 & h2 & P2 & Hrun2 & (F1 & F2 & F3 & F4) & Hnd2
        & Hframe & Ha2 & Hc2 & _ & _ & _ & _ & _ & (M1 & M2 & M3)).
  assert (D1 : a1 ∈ dom h1) by (apply elem_of_dom; eauto).
  assert (D2 : c1 ∈ dom h1) by (apply elem_of_dom; eauto).
  assert (D3 : r1 ∈ dom h1) by (apply elem_of_dom; eauto).
  assert (D4 : s1 ∈ dom h1) by (apply elem_of_dom; eauto).
  exists a1, c1, r1, s1, h1, a2, c2, r2, s2, h2.
  split; [exact Hrun1 |]. split; [exact Hrun2 |].
  split.
  { change [a1; c1; r1; s1; a2; c2; r2; s2]
      with ([a1; c1; r1; s1] ++ [a2; c2; r2; s2]).
    apply NoDup_app. split; [exact Hnd1 |]. split; [| exact Hnd2].
    intros x Hx Hy.
    assert (Hd : x ∈ dom h1).
    { rewrite !elem_of_cons, elem_of_nil in Hx.
      destruct Hx as [-> | [-> | [-> | [-> | []]]]]; assumption. }
    rewrite !elem_of_cons, elem_of_nil in Hy.
    destruct Hy as [-> | [-> | [-> | [-> | []]]]]; contradiction. }
  split; [exact Hframe |].
  unfold own_prop.
  rewrite (Hframe a1 D1), (Hframe c1 D2), Ha1, Ha2, Hc1, Hc2. cbn [props].
  split; [split; [exact L1 | split; [exact L2 | exact L3]] |].
  split; [split; [exact M1 | split; [exact M2 | exact M3]] |].
  split; reflexivity.
Qed.
End TwoApplications.

(** Two applications built on the sample modules. *)
Lemma constructor_twice_witness :
  request_module sample_runtime = HRef 2%positive
  /\ exists a1 h1 a2 h2,
       constructor sample_runtime VUndefined sample_modules = (Ok a1, h1)
       /\ constructor sample_runtime (VObject [("proxy", VBool true)]) h1
          = (Ok a2, h2)
       /\ a1 <> a2
       /\ own_prop h2 a1 "context" <> own_prop h2 a2 "context".
Proof.
  split; [reflexivity |].
  destruct (constructor_twice sample_runtime VUndefined
              (VObject [("proxy", VBool true)]) sample_modules
              1%positive 2%positive 3%positive eq_refl eq_refl eq_refl)
    as (a1 & c1 & r1 & s1 & h1 & a2 & c2 & r2 & s2 & h2 & Hrun1 & Hrun2
        & Hnd & _ & (Hc1 & _) & (Hc2 & _) & _).
  exists a1, h1, a2, h2.
  split; [exact Hrun1 |]. split; [exact Hrun2 |].
  rewrite Hc1, Hc2.
  apply NoDup_cons in Hnd. destruct Hnd as [Hin1 Hnd].
  apply NoDup_cons in Hnd. destruct Hnd as [Hin2 _].
  rewrite !elem_of_cons in Hin1, Hin2.
  split; [intros ->; tauto | intros [= ->]; tauto].
Defined.

Lemma bind_assoc {S A B C} (m : M S A) (f : A -> M S B) (g : B -> M S C)
    (s : S) :
  ((m ≫= f) ≫= g) s = (m ≫= (fun a => f a ≫= g)) s.
Proof.
  unfold mbind, M_bind. destruct (m s) as [[a | e] s']; reflexivity.
Qed.

Section Representation.
Variables (rt : runtime) (options : value) (h : gmap loc object)
          (mc mr ms : loc).
Hypothesis Hmc : context_module rt = HRef mc.
Hypothesis Hmr : request_module rt = HRef mr.
Hypothesis Hms : response_module rt = HRef ms.

Let opts : value := or_else options (VObject []).

(** X19: the JSON representation, and so the inspection, of a constructed
    application is a new object with exactly the properties subdomainOffset,
    proxy and env, whatever the options; the application is not changed. *)
Theorem toJSON_of_constructed :
  exists a h1 j h2,
    constructor rt options h = (Ok a, h1)
    /\ toJSON (HRef a) h1 = (Ok j, h2)
    /\ inspect (HRef a) h1 = (Ok j, h2)
    /\ (j ∉ dom h1)
    /\ (forall l, l ∈ dom h1 -> h2 !! l = h1 !! l)
    /\ h2 !! j
       = Some {| proto := ProtoObject;
                 props :=
                   <["env" :=
                       HPrim (or_else (field "env" opts)
                                (or_else (NODE_ENV rt) (VStr "development")))]>
                   (<["proxy" :=
                        HPrim (or_else (field "proxy" opts) (VBool false))]>
                   (<["subdomainOffset" :=
                        HPrim (or_else (field "subdomainOffset" opts)
                                 (VNum 2))]> ∅)) |}.
Proof.
  destruct (constructor_result rt options h mc mr ms Hmc Hmr Hms)
    as (a & t1 & t2 & t3 & h1 & P & Hrun & _ & _ & _ & Hoa & _ & _ & _
        & (S1 & S2 & _ & _ & S5) & _).
  fold opts in S1, S2, S5.
  assert (Hda : a ∈ dom h1) by (apply elem_of_dom; eauto).
  exists a, h1.
  assert (Hjson : exists j h2,
             toJSON (HRef a) h1 = (Ok j, h2)
             /\ (j ∉ dom h1)
             /\ (forall l, l ∈ dom h1 -> h2 !! l = h1 !! l)
             /\ h2 !! j
                = Some {| proto := ProtoObject;
                          props :=
                            <["env" :=
                                HPrim (or_else (field "env" opts)
                                         (or_else (NODE_ENV rt)
                                            (VStr "development")))]>
                            (<["proxy" :=
                                 HPrim (or_else (field "proxy" opts)
                                          (VBool false))]>
                            (<["subdomainOffset" :=
                                 HPrim (or_else (field "subdomainOffset" opts)
                                          (VNum 2))]> ∅)) |}).
  { unfold toJSON, only. cbn [hval_truthy foldr].
    rewrite (bind_ok (mret (HRef a)) _ _ _ (HRef a) eq_refl).
    new_loc j Hj.
    assert (Hja : a <> j) by (intros ->; contradiction).
    rewrite bind_assoc. read S2. cbn [hval_nullish].
    rewrite or_else_not_nullish by reflexivity.
    rewrite bind_assoc. assign.
    rewrite bind_assoc. read S1. cbn [hval_nullish].
    rewrite or_else_not_nullish by reflexivity.
    rewrite bind_assoc. assign.
    rewrite bind_assoc. read S5. cbn [hval_nullish].
    rewrite or_else_not_nullish
      by (apply or_else_not_nullish; reflexivity).
    rewrite bind_assoc. assign.
    rewrite (bind_ok (mret tt) _ _ _ tt eq_refl).
    exists j. eexists. split; [reflexivity |]. split; [exact Hj |]. split.
    - intros l Hl. assert (l <> j) by (intros ->; contradiction).
      look. reflexivity.
    - look. reflexivity. }
  destruct Hjson as (j & h2 & Hj1 & Hj2 & Hj3 & Hj4).
  exists j, h2. split; [exact Hrun |]. split; [exact Hj1 |].
  split; [exact Hj1 |]. split; [exact Hj2 |]. split; [exact Hj3 | exact Hj4].
Qed.
End Representation.

(** The representation of an application built with signing keys: the keys
    are not part of it. *)
Lemma toJSON_of_constructed_witness :
  response_module sample_runtime = HRef 3%positive
  /\ exists a h1 j h2,
       constructor sample_runtime (VObject [("keys", VArray [VStr "secret"])])
         sample_modules = (Ok a, h1)
       /\ toJSON (HRef a) h1 = (Ok j, h2)
       /\ own_prop h1 a "keys" = Some (HPrim (VArray [VStr "secret"]))
       /\ own_prop h2 j "keys" = None
       /\ own_prop h2 j "env" = Some (HPrim (VStr "development")).
Proof.
  split; [reflexivity |].
  destruct (toJSON_of_constructed sample_runtime
              (VObject [("keys", VArray [VStr "secret"])]) sample_modules
              1%positive 2%positive 3%positive eq_refl eq_refl eq_refl)
    as (a & h1 & j & h2 & Hrun & Hjson & _ & _ & _ & Hj).
  exists a, h1, j, h2.
  split; [exact Hrun |]. split; [exact Hjson |].
  split.
  - vm_compute in Hrun. injection Hrun as <- <-. reflexivity.
  - unfold own_prop. rewrite Hj. split; reflexivity.
Defined.
